(** * NewsApi.ApiCaller: the response validation and record construction pipeline

    A shallow embedding of [src/NewsApi/ApiCaller.py].  The decoded JSON body
    handed over by [requests] is a value of type [json]; the classes [Authors],
    [Sources], [Articles] and [ApiResponse] become modules of functions in a
    small monad that threads the calls made to [_LOGGER.log] and carries the
    exceptions the Python code raises and catches.  [call_api] itself (the
    HTTP request) is outside the embedding. *)

From Stdlib Require Import Ascii String Floats.SpecFloat.
From stdpp Require Import gmap strings list fin_maps pretty.

Local Set Warnings "-register-all".
Local Open Scope string_scope.

(** ** Decoded JSON values

    What [json.loads] produces: [None], [bool], [int] (unbounded), [float],
    [str], [list] and [dict] with [str] keys.  A [str] is kept as its UTF-8
    bytes; the only string operations of the program are the emptiness test
    and the split on the ASCII space, which agree on bytes and code points.
    A [dict] is a finite map: its key order only shows in [repr], which is
    not modelled. *)

Inductive json : Type :=
  | JNull
  | JBool (b : bool)
  | JInt (z : Z)
  | JFloat (f : spec_float)
  | JStr (s : string)
  | JList (l : list json)
  | JDict (d : gmap string json).

(** [bool(v)], as used by [if author_name:]. *)
Definition truthy (v : json) : bool :=
  match v with
  | JNull => false
  | JBool b => b
  | JInt z => negb (z =? 0)%Z
  | JFloat (S754_zero _) => false
  | JFloat _ => true
  | JStr s => negb (String.eqb s EmptyString)
  | JList l => negb (bool_decide (length l = 0))
  | JDict d => negb (bool_decide (size d = 0))
  end.

(** [v == lit] for a string literal [lit]: the test of a literal pattern. *)
Definition literal_eq (v : json) (lit : string) : bool :=
  match v with
  | JStr s => bool_decide (s = lit)
  | _ => false
  end.

(** ** The named tuples

    The field annotations of a [NamedTuple] are not enforced at run time, so
    a field holds whatever value it was given.  The two fields of an [Author]
    come out of [str.split] and are therefore strings. *)

Record Author : Type := mkAuthor { firstName : string; lastName : string }.
Record Source : Type := mkSource { Source_id : json; Source_name : json }.
Record Article : Type := mkArticle {
  title : json;
  description : json;
  url : json;
  urlToImage : json;
  publishedAt : json;
  content : json
}.
Record MetaData : Type := mkMetaData { totalResults : json }.

(** ** Text built with the [%] operator

    [str(v)] is the text itself for a [str], the decimal digits for an [int]
    and a fixed word for [None] and the booleans.  For floats and containers
    it is CPython's [repr], which is left symbolic: a formatted message is a
    sequence of literal text and [str(v)] pieces. *)

Inductive piece : Type :=
  | Lit (s : string)
  | StrOf (v : json).

Definition message : Type := list piece.

Definition py_str (v : json) : option string :=
  match v with
  | JNull => Some "None"
  | JBool true => Some "True"
  | JBool false => Some "False"
  | JInt z => Some (pretty z)
  | JStr s => Some s
  | JFloat _ | JList _ | JDict _ => None
  end.

(** The text of a message, when every [str(v)] in it is modelled. *)
Fixpoint render (m : message) : option string :=
  match m with
  | [] => Some EmptyString
  | Lit s :: m' => (λ t, s ++ t) <$> render m'
  | StrOf v :: m' => s ← py_str v; (λ t, s ++ t) <$> render m'
  end.

(** ** Exceptions, log records and the monad *)

Inductive exn : Type :=
  | TypeError
  | AttributeError
  | SourceError (msg : string)
  | ResponseError (msg : message).

Inductive res (A : Type) : Type :=
  | Ok (a : A)
  | Raise (e : exn).
Arguments Ok {A} a.
Arguments Raise {A} e.

Inductive level : Type := INFO | WARNING.

(** The private exception classes only ever wrap a value for the log. *)
Inductive record_error : Type :=
  | _RecordCreationError (v : json)
  | _AuthorCreationError (v : json)
  | _SourceCreationError (v : json)
  | _ArticleCreationError (v : json).

(** One call [_LOGGER.log(lvl, fmt, arg, exc_info=True)]. *)
Record log_record : Type := mkLog {
  log_level : level;
  log_fmt : string;
  log_arg : record_error
}.

(** A computation reads and extends the sequence of log calls made so far
    and either returns or raises. *)
Definition M (A : Type) : Type := list log_record → res A * list log_record.

#[global] Instance M_ret : MRet M := λ A a σ, (Ok a, σ).
#[global] Instance M_bind : MBind M := λ A B f m σ,
  match m σ with
  | (Ok a, σ') => f a σ'
  | (Raise e, σ') => (Raise e, σ')
  end.

Definition raise {A} (e : exn) : M A := λ σ, (Raise e, σ).

(** [try: body / except ...: handler e]: the handler sees the log as the body
    left it. *)
Definition try_except {A} (body : M A) (handler : exn → M A) : M A := λ σ,
  match body σ with
  | (Ok a, σ') => (Ok a, σ')
  | (Raise e, σ') => handler e σ'
  end.

Definition _LOGGER_log (lvl : level) (fmt : string) (arg : record_error) : M unit :=
  λ σ, (Ok tt, (σ ++ [mkLog lvl fmt arg])%list).

(** ** Built-ins the program calls *)

(** [s.split(sep)] for a one-character separator. *)
Fixpoint split (sep : ascii) (s : string) : list string :=
  match s with
  | EmptyString => [EmptyString]
  | String c s' =>
      if Ascii.eqb c sep then EmptyString :: split sep s'
      else match split sep s' with
           | h :: t => String c h :: t
           | [] => [String c EmptyString]
           end
  end.

(** [v.split(" ")]: only a [str] has the attribute. *)
Definition attr_split (v : json) (sep : ascii) : M (list string) :=
  match v with
  | JStr s => mret (split sep s)
  | _ => raise AttributeError
  end.

(** [Author] applied to star-args: two positional parameters, no default. *)
Definition Author_call (args : list string) : M Author :=
  match args with
  | [first; last] => mret (mkAuthor first last)
  | _ => raise TypeError
  end.

Definition Article_fields : list string :=
  ["title"; "description"; "url"; "urlToImage"; "publishedAt"; "content"].

(** [Article] applied to keyword arguments: six required parameters; a missing one and an
    unexpected keyword both raise [TypeError]. *)
Definition Article_call (kwargs : gmap string json) : M Article :=
  match kwargs !! "title", kwargs !! "description", kwargs !! "url",
        kwargs !! "urlToImage", kwargs !! "publishedAt", kwargs !! "content" with
  | Some t, Some d, Some u, Some i, Some p, Some c =>
      if bool_decide (size (foldr delete kwargs Article_fields) = 0)
      then mret (mkArticle t d u i p c)
      else raise TypeError
  | _, _, _, _, _, _ => raise TypeError
  end.

(** [template % args] where the only conversion in the template is [%s]:
    each [%s] becomes the [str] of the next argument; too few or too many
    arguments raise [TypeError]. *)
Definition lit_cons (c : ascii) (m : message) : message :=
  match m with
  | Lit s :: m' => Lit (String c s) :: m'
  | _ => Lit (String c EmptyString) :: m
  end.

Fixpoint percent_format (template : string) (args : list json) : res message :=
  match template with
  | EmptyString =>
      match args with
      | [] => Ok []
      | _ :: _ => Raise TypeError
      end
  | String c rest =>
      let literal :=
        match percent_format rest args with
        | Ok m => Ok (lit_cons c m)
        | Raise e => Raise e
        end in
      match rest with
      | String c' rest' =>
          if Ascii.eqb c "%"%char && Ascii.eqb c' "s"%char then
            match args with
            | [] => Raise TypeError
            | v :: args' =>
                match percent_format rest' args' with
                | Ok m => Ok (StrOf v :: m)
                | Raise e => Raise e
                end
            end
          else literal
      | EmptyString => literal
      end
  end.

Definition percent (template : string) (args : list json) : M message :=
  λ σ, (percent_format template args, σ).

(** The line feed written [\n] in the source. *)
Definition LF : string := String "010"%char EmptyString.

(** ** class Authors *)

(** What [add_author] hands back: an [Author], or a raw value (the falsy
    argument itself on the first [return], [None] on the last). *)
Inductive author_ret : Type :=
  | RetAuthor (a : Author)
  | RetRaw (v : json).

Module Authors.

Definition add_author (author_name : json) : M author_ret :=
  try_except
    (if truthy author_name then
       args ← attr_split author_name " "%char;
       author ← Author_call args;
       mret (RetAuthor author)
     else mret (RetRaw author_name))
    (λ e,
       match e with
       | TypeError =>
           _LOGGER_log INFO "Couldn't create author record: %s"
             (_AuthorCreationError author_name)
       | _ =>
           _LOGGER_log WARNING "Unhandled Exception: %s"
             (_AuthorCreationError author_name)
       end;;
       mret (RetRaw JNull)).

End Authors.

(** ** class Sources *)

Module Sources.

(** The mapping pattern [{'id': ident, 'name': name}]. *)
Definition case_id_name (subject : json) : option (json * json) :=
  match subject with
  | JDict d => ident ← d !! "id"; name ← d !! "name"; Some (ident, name)
  | _ => None
  end.

Definition __make_source (source_raw : json) : M Source :=
  match case_id_name source_raw with
  | Some (ident, name) => mret (mkSource ident name)
  | None => raise (SourceError "Unknown Source Format.")
  end.

Definition add_source (source_info : json) : M (option Source) :=
  try_except
    (source ← __make_source source_info;
     mret (Some source))
    (λ e,
       match e with
       | TypeError | SourceError _ =>
           _LOGGER_log INFO "Unable to create source: %s"
             (_SourceCreationError source_info)
       | _ =>
           _LOGGER_log WARNING "Unhandled exception: %s"
             (_SourceCreationError source_info)
       end;;
       mret None).

End Sources.

(** ** class Articles *)

Definition ArticleRecord : Type := option Source * author_ret * Article.

Module Articles.

(** The mapping pattern
    [{'source': { **source_raw}, 'author': author_raw, **article_data}]. *)
Definition case_article (subject : json)
    : option (gmap string json * json * gmap string json) :=
  match subject with
  | JDict d =>
      source ← d !! "source";
      author_raw ← d !! "author";
      match source with
      | JDict source_raw =>
          Some (source_raw, author_raw, delete "source" (delete "author" d))
      | _ => None
      end
  | _ => None
  end.

Definition __make_article_record (article_raw : json) : M (option ArticleRecord) :=
  match case_article article_raw with
  | Some (source_raw, author_raw, article_data) =>
      try_except
        (source ← Sources.add_source (JDict source_raw);
         author ← Authors.add_author author_raw;
         article ← Article_call article_data;
         mret (Some (source, author, article)))
        (λ e,
           match e with
           | TypeError =>
               _LOGGER_log INFO "Ran into an error creating article object: %s"
                 (_ArticleCreationError (JDict article_data))
           | _ =>
               _LOGGER_log WARNING "Unhandled exception: %s"
                 (_RecordCreationError article_raw)
           end;;
           mret None)
  | None =>
      _LOGGER_log INFO "Unpatterned article: %s" (_ArticleCreationError article_raw);;
      mret None
  end.

(** The generator expression
    [self.__make_article_record(article_raw) for article_raw in articles if not None]:
    its filter tests the constant [None]. *)
Fixpoint genexpr (articles : list json) : M (list (option ArticleRecord)) :=
  match articles with
  | [] => mret []
  | article_raw :: rest =>
      if negb (truthy JNull) then
        record ← __make_article_record article_raw;
        records ← genexpr rest;
        mret (record :: records)
      else genexpr rest
  end.

Record t : Type := mk { articles : list (option ArticleRecord) }.

(** [self.articles = list(); self.articles.extend(...)]. *)
Definition __init__ (articles : list json) : M t :=
  items ← genexpr articles;
  mret (mk ([] ++ items)%list).

End Articles.

(** ** class ApiResponse *)

Module ApiResponse.

(** [{'status': 'ok', 'totalResults': total_results, 'articles': [*articles]}]:
    among JSON values only a [list] is matched by a sequence pattern. *)
Definition case_ok (subject : json) : option (json * list json) :=
  match subject with
  | JDict d =>
      status ← d !! "status";
      total_results ← d !! "totalResults";
      arts ← d !! "articles";
      if literal_eq status "ok" then
        match arts with
        | JList articles => Some (total_results, articles)
        | _ => None
        end
      else None
  | _ => None
  end.

(** [{'status': 'error', 'code': code, 'message': message}]. *)
Definition case_error (subject : json) : option (json * json) :=
  match subject with
  | JDict d =>
      status ← d !! "status";
      code ← d !! "code";
      message ← d !! "message";
      if literal_eq status "error" then Some (code, message) else None
  | _ => None
  end.

Definition __match_response (response_obj : json) : M (MetaData * Articles.t) :=
  match case_ok response_obj with
  | Some (total_results, articles) =>
      arts ← Articles.__init__ articles;
      mret (mkMetaData total_results, arts)
  | None =>
      match case_error response_obj with
      | Some (code, message) =>
          msg ← percent ("Error Code: %s" ++ LF ++ "Message: %s") [code; message];
          raise (ResponseError msg)
      | None =>
          msg ← percent "Not yet patterned response: %s" [response_obj];
          raise (ResponseError msg)
      end
  end.

Record t : Type := mk { metadata : MetaData; articles : Articles.t }.

Definition __init__ (response : json) : M t :=
  '(metadata, articles) ← __match_response response;
  mret (mk metadata articles).

End ApiResponse.

(** ** Sample documents *)

Definition dict (kvs : list (string * json)) : json := JDict (list_to_map kvs).

Definition sample_source : json := dict [("id", JStr "cnn"); ("name", JStr "CNN")].

Definition sample_article : json :=
  dict [("source", sample_source); ("author", JStr "Jane Doe");
        ("title", JStr "T"); ("description", JStr "D"); ("url", JStr "U");
        ("urlToImage", JStr "I"); ("publishedAt", JStr "2024-01-02T03:04:05Z");
        ("content", JStr "C")].

(** The same fragment with a number as [title]. *)
Definition mistyped_article : json :=
  dict [("source", sample_source); ("author", JStr "Jane Doe");
        ("title", JInt 5); ("description", JStr "D"); ("url", JStr "U");
        ("urlToImage", JStr "I"); ("publishedAt", JStr "2024-01-02T03:04:05Z");
        ("content", JStr "C")].

(** The same fragment without [content]. *)
Definition article_without_content : json :=
  dict [("source", sample_source); ("author", JStr "Jane Doe");
        ("title", JStr "T"); ("description", JStr "D"); ("url", JStr "U");
        ("urlToImage", JStr "I"); ("publishedAt", JStr "2024-01-02T03:04:05Z")].

Definition sample_error : json :=
  dict [("status", JStr "error"); ("code", JInt 426);
        ("message", JStr "API key invalid")].

(** ** Vocabulary of the properties *)

(** The value a computation returns and the log calls it makes, started on
    an empty log. *)
Definition result_of {A} (m : M A) : res A := (m []).1.
Definition events_of {A} (m : M A) : list log_record := (m []).2.

(** A computation that only appends to the log and never looks at it. *)
Definition framed {A} (m : M A) : Prop :=
  ∀ σ, m σ = (result_of m, (σ ++ events_of m)%list).

Fixpoint has_char (c : ascii) (s : string) : bool :=
  match s with
  | EmptyString => false
  | String c' s' => Ascii.eqb c' c || has_char c s'
  end.

Definition is_str (v : json) : bool :=
  match v with
  | JStr _ => true
  | _ => false
  end.

(** [sub] occurs in [s]. *)
Definition substring_of (sub s : string) : Prop :=
  ∃ pre post, s = pre ++ sub ++ post.

(** The eight keys of an article fragment that yields a record. *)
Definition record_keys : gset string :=
  {[ "source"; "author" ]} ∪ list_to_set Article_fields.

(** The key shapes the two mapping patterns of [__match_response] test. *)
Definition ok_shape (raw : json) : Prop :=
  ∃ d total_results articles,
    raw = JDict d ∧ d !! "status" = Some (JStr "ok") ∧
    d !! "totalResults" = Some total_results ∧
    d !! "articles" = Some (JList articles).

Definition error_shape (raw : json) : Prop :=
  ∃ d code msg,
    raw = JDict d ∧ d !! "status" = Some (JStr "error") ∧
    d !! "code" = Some code ∧ d !! "message" = Some msg.

(** The message of the reported-error branch. *)
Definition error_message (code msg : json) : message :=
  [Lit "Error Code: "; StrOf code; Lit (LF ++ "Message: "); StrOf msg].

(** *** The builders as the specification words them

    These follow the prose of the specification, not the code; they are what
    the code is compared with. *)

Definition is_whitespace (c : ascii) : bool :=
  let n := nat_of_ascii c in
  bool_decide (n = 32)%nat || bool_decide (9 ≤ n ≤ 13)%nat.

Definition starts_token (s : string) : bool :=
  match s with
  | EmptyString => false
  | String c _ => negb (is_whitespace c)
  end.

(** The non-empty whitespace-delimited tokens of [s]. *)
Fixpoint spec_tokens (s : string) : list string :=
  match s with
  | EmptyString => []
  | String c s' =>
      if is_whitespace c then spec_tokens s'
      else if starts_token s' then
        match spec_tokens s' with
        | h :: t => String c h :: t
        | [] => [String c EmptyString]
        end
      else String c EmptyString :: spec_tokens s'
  end.

(** Section 4.1: exactly two tokens give an [Author], anything else none. *)
Definition spec_buildAuthor (raw : json) : option Author :=
  match raw with
  | JStr s =>
      match spec_tokens s with
      | [token0; token1] => Some (mkAuthor token0 token1)
      | _ => None
      end
  | _ => None
  end.

(** Section 4.2: a mapping with [id] (string or null) and [name] (string). *)
Definition spec_source_shape (raw : json) : bool :=
  match raw with
  | JDict d =>
      match d !! "id", d !! "name" with
      | Some (JStr _ | JNull), Some (JStr _) => true
      | _, _ => false
      end
  | _ => false
  end.

(** Section 4.4, branch 1: [status == "ok"], integer [totalResults], list
    [articles]. *)
Definition spec_success_shape (raw : json) : bool :=
  match raw with
  | JDict d =>
      match d !! "status", d !! "totalResults", d !! "articles" with
      | Some status, Some (JInt _), Some (JList _) => literal_eq status "ok"
      | _, _, _ => false
      end
  | _ => false
  end.

(** Section 3: the record sequence keeps only the records that were built. *)
Definition spec_records (built : list (option ArticleRecord)) : list (option ArticleRecord) :=
  filter (λ r, is_Some r) built.

(** The message of the unrecognised branch. *)
Definition unpatterned_message (raw : json) : message :=
  [Lit "Not yet patterned response: "; StrOf raw].

(** The record an article fragment yields ([None] when it is dropped),
    whatever the log. *)
Definition yields (raw : json) (record : option ArticleRecord) : Prop :=
  result_of (Articles.__make_article_record raw) = Ok record.

Definition ok_doc (total_results : json) (articles : list json) : json :=
  dict [("status", JStr "ok"); ("totalResults", total_results);
        ("articles", JList articles)].

(** ** Vocabulary of the log and of whole batches *)

(** The number of occurrences of [c] in [s]. *)
Fixpoint count_char (c : ascii) (s : string) : nat :=
  match s with
  | EmptyString => 0
  | String c' s' => (if Ascii.eqb c' c then 1 else 0) + count_char c s'
  end.

Fixpoint count_where {A} (p : A → bool) (l : list A) : nat :=
  match l with
  | [] => 0
  | x :: l' => (if p x then 1 else 0) + count_where p l'
  end.

(** The record a fragment yields and the log calls made for it. *)
Definition record_of (raw : json) : option ArticleRecord :=
  match result_of (Articles.__make_article_record raw) with
  | Ok r => r
  | Raise _ => None
  end.

Definition article_events (raw : json) : list log_record :=
  events_of (Articles.__make_article_record raw).

Definition is_dropped (r : option ArticleRecord) : bool :=
  match r with
  | None => true
  | Some _ => false
  end.

(** The log calls of the three [except] clauses that the builders reach. *)
Definition author_info (raw : json) : log_record :=
  mkLog INFO "Couldn't create author record: %s" (_AuthorCreationError raw).

Definition author_warning (raw : json) : log_record :=
  mkLog WARNING "Unhandled Exception: %s" (_AuthorCreationError raw).

Definition source_info (raw : json) : log_record :=
  mkLog INFO "Unable to create source: %s" (_SourceCreationError raw).

(** A log call that reports a dropped article. *)
Definition is_article_error (rec : log_record) : bool :=
  match log_arg rec with
  | _ArticleCreationError _ => true
  | _ => false
  end.

(** A log call made by one of the two builders; if it is a warning, it is
    the one of [add_author] for a truthy value that is not a string. *)
Definition builder_record (rec : log_record) : Prop :=
  (∃ v, rec = source_info v) ∨ (∃ v, rec = author_info v) ∨
  (∃ v, rec = author_warning v ∧ truthy v = true ∧ is_str v = false).

Definition warning_from_author (rec : log_record) : Prop :=
  log_level rec = WARNING →
  ∃ v, rec = author_warning v ∧ truthy v = true ∧ is_str v = false.

(** An author value [add_author] accepts without a log call: a falsy value,
    or a name with exactly one space. *)
Definition quiet_author (v : json) : Prop :=
  truthy v = false ∨
  ∃ a b, v = JStr (a ++ " " ++ b) ∧ has_char " " a = false ∧ has_char " " b = false.

(** A fragment with the eight keys, a source mapping that has [id] and
    [name], and a quiet author. *)
Definition clean_article (raw : json) : Prop :=
  ∃ d s a, raw = JDict d ∧ dom d = record_keys ∧
    d !! "source" = Some (JDict s) ∧ is_Some (s !! "id") ∧ is_Some (s !! "name") ∧
    d !! "author" = Some a ∧ quiet_author a.

(** The text under which an upstream value appears verbatim: the decimal
    digits of an integer, the string itself. *)
Definition verbatim (v : json) (text : string) : Prop :=
  (∃ z, v = JInt z ∧ text = pretty z) ∨ v = JStr text.

(** The five log calls the pipeline can make: the three of the builders and
    the two that report a dropped fragment. *)
Definition pipeline_record (rec : log_record) : Prop :=
  builder_record rec ∨
  (∃ v, rec = mkLog INFO "Unpatterned article: %s" (_ArticleCreationError v)) ∨
  (∃ v, rec = mkLog INFO "Ran into an error creating article object: %s"
                (_ArticleCreationError v)).

(** * Properties *)

(** ** The monad: every operation only appends to the log *)

Lemma framed_ret {A} (a : A) : framed (mret a : M A).
Proof. intros σ. unfold result_of, events_of. cbn. by rewrite app_nil_r. Qed.

Lemma framed_raise {A} (e : exn) : framed (raise e : M A).
Proof. intros σ. unfold result_of, events_of, raise. cbn. by rewrite app_nil_r. Qed.

Lemma framed_log lvl fmt arg : framed (_LOGGER_log lvl fmt arg).
Proof. intros σ. reflexivity. Qed.

Lemma framed_percent template args : framed (percent template args).
Proof. intros σ. unfold result_of, events_of, percent. cbn. by rewrite app_nil_r. Qed.

Lemma framed_bind {A B} (m : M A) (f : A → M B) :
  framed m → (∀ a, framed (f a)) → framed (m ≫= f).
Proof.
  intros Hm Hf σ. unfold result_of, events_of, mbind, M_bind.
  rewrite (Hm σ), (Hm []). cbn [app].
  destruct (result_of m) as [a|e]; [|done].
  rewrite (Hf a (σ ++ events_of m)%list), (Hf a (events_of m)). cbn.
  by rewrite app_assoc.
Qed.

Lemma framed_try {A} (body : M A) (handler : exn → M A) :
  framed body → (∀ e, framed (handler e)) → framed (try_except body handler).
Proof.
  intros Hb Hh σ. unfold result_of, events_of, try_except.
  rewrite (Hb σ), (Hb []). cbn [app].
  destruct (result_of body) as [a|e]; [done|].
  rewrite (Hh e (σ ++ events_of body)%list), (Hh e (events_of body)). cbn.
  by rewrite app_assoc.
Qed.

Ltac framed_step :=
  first
    [ apply framed_ret | apply framed_raise | apply framed_log
    | apply framed_percent
    | apply framed_bind; [|intros ?] | apply framed_try; [|intros ?] ].

Lemma framed_add_author raw : framed (Authors.add_author raw).
Proof.
  unfold Authors.add_author. framed_step.
  - destruct (truthy raw); repeat framed_step.
    + unfold attr_split. destruct raw; framed_step.
    + unfold Author_call. destruct a as [|? [|? [|? ?]]]; framed_step.
  - destruct e; repeat framed_step.
Qed.

Lemma framed_add_source raw : framed (Sources.add_source raw).
Proof.
  unfold Sources.add_source. framed_step.
  - framed_step; [|framed_step].
    unfold Sources.__make_source.
    destruct (Sources.case_id_name raw) as [[? ?]|]; framed_step.
  - destruct e; repeat framed_step.
Qed.

Lemma framed_Article_call kwargs : framed (Article_call kwargs).
Proof.
  unfold Article_call.
  repeat (match goal with |- context [match ?o with Some _ => _ | None => _ end] =>
            destruct o end; try framed_step).
  case_bool_decide; framed_step.
Qed.

Lemma framed_make_article_record raw : framed (Articles.__make_article_record raw).
Proof.
  unfold Articles.__make_article_record.
  destruct (Articles.case_article raw) as [[[source_raw author_raw] article_data]|].
  - framed_step.
    + framed_step; [apply framed_add_source|].
      framed_step; [apply framed_add_author|].
      framed_step; [apply framed_Article_call|]. framed_step.
    + destruct e; repeat framed_step.
  - repeat framed_step.
Qed.

Lemma framed_genexpr l : framed (Articles.genexpr l).
Proof.
  induction l as [|raw l IH]; cbn [Articles.genexpr truthy negb]; [framed_step|].
  framed_step; [apply framed_make_article_record|].
  framed_step; [apply IH|]. framed_step.
Qed.

Lemma framed_Articles_init l : framed (Articles.__init__ l).
Proof. unfold Articles.__init__. framed_step; [apply framed_genexpr|]. framed_step. Qed.

Lemma framed_match_response raw : framed (ApiResponse.__match_response raw).
Proof.
  unfold ApiResponse.__match_response.
  destruct (ApiResponse.case_ok raw) as [[? ?]|].
  - framed_step; [apply framed_Articles_init|]. framed_step.
  - destruct (ApiResponse.case_error raw) as [[? ?]|]; repeat framed_step.
Qed.

Lemma framed_ApiResponse_init raw : framed (ApiResponse.__init__ raw).
Proof.
  unfold ApiResponse.__init__. framed_step; [apply framed_match_response|].
  destruct a. framed_step.
Qed.

(** ** [str.split] on one separator *)

Lemma split_not_nil sep s : split sep s ≠ [].
Proof.
  destruct s as [|c s]; cbn; [done|].
  destruct (Ascii.eqb c sep); [done|]. by destruct (split sep s).
Qed.

Lemma split_single sep s a :
  split sep s = [a] ↔ s = a ∧ has_char sep s = false.
Proof.
  revert a. induction s as [|c s IH]; intros a; cbn.
  - split; [by intros [= <-]|by intros [<- _]].
  - destruct (Ascii.eqb c sep) eqn:Hc; cbn.
    + split; [|by intros [_ ?]]. intros [= _ H]. by apply split_not_nil in H.
    + destruct (split sep s) as [|h t] eqn:Hs; [by apply split_not_nil in Hs|].
      split.
      * intros [= <- ->]. by destruct (proj1 (IH h) eq_refl) as [-> ?].
      * intros [<- Hn]. by injection (proj2 (IH s) (conj eq_refl Hn)) as -> ->.
Qed.

Lemma split_pair sep s a b :
  split sep s = [a; b] ↔
  s = a ++ String sep b ∧ has_char sep a = false ∧ has_char sep b = false.
Proof.
  revert a. induction s as [|c s IH]; intros a; cbn.
  - split; [done|]. intros [H _]. by destruct a.
  - destruct (Ascii.eqb c sep) eqn:Hc; cbn.
    + apply Ascii.eqb_eq in Hc as ->. split.
      * intros [= <- H]. apply split_single in H as [-> H]. done.
      * intros (H & Ha & Hb). destruct a as [|c' a]; cbn in *.
        -- injection H as ->. f_equal. by apply split_single.
        -- injection H as <- _. by rewrite Ascii.eqb_refl in Ha.
    + destruct (split sep s) as [|h t] eqn:Hs; [by apply split_not_nil in Hs|].
      split.
      * intros [= <- ->]. destruct (proj1 (IH h) eq_refl) as (-> & Ha & Hb).
        cbn. by rewrite Hc.
      * intros (H & Ha & Hb). destruct a as [|c' a]; cbn in *.
        -- injection H as -> _. by rewrite Ascii.eqb_refl in Hc.
        -- injection H as <- ->. rewrite Hc in Ha. cbn in Ha.
           by injection (proj2 (IH a) (conj eq_refl (conj Ha Hb))) as -> ->.
Qed.

(** ** [Authors.add_author] *)

Lemma add_author_falsy raw σ :
  truthy raw = false → Authors.add_author raw σ = (Ok (RetRaw raw), σ).
Proof. intros H. unfold Authors.add_author, try_except. by rewrite H. Qed.

Lemma add_author_not_str raw σ :
  is_str raw = false → ∃ v σ', Authors.add_author raw σ = (Ok (RetRaw v), σ').
Proof.
  intros H. destruct (truthy raw) eqn:Ht.
  - unfold Authors.add_author, try_except. rewrite Ht.
    destruct raw; try done; cbn; eauto.
  - rewrite add_author_falsy by done. eauto.
Qed.

Lemma add_author_str s σ :
  s ≠ EmptyString →
  Authors.add_author (JStr s) σ =
  match split " " s with
  | [a; b] => (Ok (RetAuthor (mkAuthor a b)), σ)
  | _ => (Ok (RetRaw JNull),
          (σ ++ [mkLog INFO "Couldn't create author record: %s"
                   (_AuthorCreationError (JStr s))])%list)
  end.
Proof.
  intros Hs. unfold Authors.add_author, try_except.
  assert (truthy (JStr s) = true) as -> by by destruct s.
  cbn. by destruct (split " " s) as [|a [|b [|? ?]]].
Qed.

Lemma add_author_total raw σ : ∃ r σ', Authors.add_author raw σ = (Ok r, σ').
Proof.
  destruct (is_str raw) eqn:Hr.
  - destruct raw as [| | | |s| |]; try done. destruct (decide (s = EmptyString)) as [->|Hs].
    + rewrite add_author_falsy by done. eauto.
    + rewrite add_author_str by done.
      destruct (split " " s) as [|a [|b [|? ?]]]; eauto.
  - destruct (add_author_not_str raw σ Hr) as (v & σ' & ->). eauto.
Qed.

Lemma add_author_cases raw σ :
  (∃ a b, Authors.add_author raw σ = (Ok (RetAuthor (mkAuthor a b)), σ)) ∨
  (truthy raw = false ∧ Authors.add_author raw σ = (Ok (RetRaw raw), σ)) ∨
  (truthy raw = true ∧ ∃ σ', Authors.add_author raw σ = (Ok (RetRaw JNull), σ')).
Proof.
  destruct (truthy raw) eqn:Ht.
  - destruct raw as [| | | |s| |];
      try (right; right; split; [done|];
           unfold Authors.add_author, try_except; rewrite Ht; cbn; by eauto).
    assert (s ≠ EmptyString) as Hs by (by intros ->).
    rewrite add_author_str by done.
    destruct (split " " s) as [|a [|b [|? ?]]];
      [right; right; eauto|right; right; eauto|left; eauto|right; right; eauto].
  - right. left. split; [done|]. by apply add_author_falsy.
Qed.

Lemma add_author_Author raw σ a b σ' :
  Authors.add_author raw σ = (Ok (RetAuthor (mkAuthor a b)), σ') ↔
  raw = JStr (a ++ " " ++ b) ∧ has_char " " a = false ∧ has_char " " b = false ∧ σ' = σ.
Proof.
  split.
  - intros H. destruct (is_str raw) eqn:Hr.
    + destruct raw as [| | | |s| |]; try done.
      destruct (decide (s = EmptyString)) as [->|Hs]; [by rewrite add_author_falsy in H|].
      rewrite add_author_str in H by done.
      destruct (split " " s) as [|a' [|b' [|? ?]]] eqn:Hsp; try done.
      injection H as <- <- <-. apply split_pair in Hsp as (-> & ? & ?). done.
    + destruct (add_author_not_str raw σ Hr) as (v & σ0 & Hv). congruence.
  - intros (-> & Ha & Hb & ->).
    rewrite add_author_str by by destruct a.
    by rewrite (proj2 (split_pair " " (a ++ " " ++ b) a b)).
Qed.

(** C4 (amended): [add_author] never raises: it returns an [Author], or its
    argument when that is falsy, or [None].  It returns [Author(a, b)] exactly
    when its argument is the string [a], one space, [b], where neither [a]
    nor [b] contains a space (either may be empty), and makes no log call
    then.  The five calls of P3 behave as listed, the empty string being
    handed back as it is. *)
Theorem C4_add_author_single_space :
  (∀ raw σ,
     (∃ a b, Authors.add_author raw σ = (Ok (RetAuthor (mkAuthor a b)), σ)) ∨
     (truthy raw = false ∧ Authors.add_author raw σ = (Ok (RetRaw raw), σ)) ∨
     (truthy raw = true ∧ ∃ σ', Authors.add_author raw σ = (Ok (RetRaw JNull), σ'))) ∧
  (∀ raw σ a b σ',
     Authors.add_author raw σ = (Ok (RetAuthor (mkAuthor a b)), σ') ↔
     raw = JStr (a ++ " " ++ b) ∧
     has_char " " a = false ∧ has_char " " b = false ∧ σ' = σ) ∧
  result_of (Authors.add_author (JStr "Jane Doe")) = Ok (RetAuthor (mkAuthor "Jane" "Doe")) ∧
  result_of (Authors.add_author (JStr "Jane")) = Ok (RetRaw JNull) ∧
  result_of (Authors.add_author (JStr EmptyString)) = Ok (RetRaw (JStr EmptyString)) ∧
  result_of (Authors.add_author JNull) = Ok (RetRaw JNull) ∧
  result_of (Authors.add_author (JStr "Jane Middle Doe")) = Ok (RetRaw JNull).
Proof.
  split; [apply add_author_cases|].
  split; [apply add_author_Author|].
  by repeat split.
Qed.

(** C4 as stated fails in both directions: a leading space gives an [Author]
    with an empty first name although the string has a single token, and two
    tokens separated by two spaces give no [Author]. *)
Lemma C4_whitespace_tokens_counterexample :
  spec_buildAuthor (JStr " Jane") = None ∧
  result_of (Authors.add_author (JStr " Jane")) = Ok (RetAuthor (mkAuthor EmptyString "Jane")) ∧
  spec_buildAuthor (JStr "Jane  Doe") = Some (mkAuthor "Jane" "Doe") ∧
  result_of (Authors.add_author (JStr "Jane  Doe")) = Ok (RetRaw JNull).
Proof. by repeat split. Qed.

(** C5 (amended): every [Author] that [add_author] returns has two string
    components, neither of which contains a space, and the argument was the
    first component, one space, and the last component.  A component may be
    empty. *)
Theorem C5_author_components raw σ a σ' :
  Authors.add_author raw σ = (Ok (RetAuthor a), σ') →
  has_char " " (firstName a) = false ∧ has_char " " (lastName a) = false ∧
  raw = JStr (firstName a ++ " " ++ lastName a).
Proof.
  destruct a as [first last]. intros H.
  apply add_author_Author in H as (-> & ? & ? & _). done.
Qed.

Lemma C5_author_components_witness :
  has_char " " "Jane" = false ∧ has_char " " "Doe" = false ∧
  JStr "Jane Doe" = JStr ("Jane" ++ " " ++ "Doe").
Proof.
  apply (C5_author_components (JStr "Jane Doe") [] (mkAuthor "Jane" "Doe") []).
  reflexivity.
Defined.

(** C5 as stated fails: a single space yields an [Author] whose two
    components are both empty. *)
Lemma C5_empty_component_counterexample :
  ∃ a, result_of (Authors.add_author (JStr " ")) = Ok (RetAuthor a) ∧
       firstName a = EmptyString ∧ lastName a = EmptyString.
Proof. by exists (mkAuthor EmptyString EmptyString). Qed.

(** ** [Sources.add_source] *)

Lemma case_id_name_Some raw ident name :
  Sources.case_id_name raw = Some (ident, name) ↔
  ∃ d, raw = JDict d ∧ d !! "id" = Some ident ∧ d !! "name" = Some name.
Proof.
  split.
  - destruct raw as [| | | | | |d]; try done. cbn.
    destruct (d !! "id") as [i|] eqn:Hi; [|done].
    destruct (d !! "name") as [n|] eqn:Hn; [|done].
    cbn. intros [= <- <-]. eauto.
  - intros (d & -> & Hi & Hn). cbn. by rewrite Hi, Hn.
Qed.

Lemma add_source_run raw σ :
  Sources.add_source raw σ =
  match Sources.case_id_name raw with
  | Some (ident, name) => (Ok (Some (mkSource ident name)), σ)
  | None => (Ok None,
             (σ ++ [mkLog INFO "Unable to create source: %s" (_SourceCreationError raw)])%list)
  end.
Proof.
  unfold Sources.add_source, Sources.__make_source, try_except.
  by destruct (Sources.case_id_name raw) as [[? ?]|].
Qed.

Lemma add_source_total raw σ : ∃ r σ', Sources.add_source raw σ = (Ok r, σ').
Proof.
  rewrite add_source_run. destruct (Sources.case_id_name raw) as [[? ?]|]; eauto.
Qed.

(** C6 (amended): [add_source] never raises; it returns [Source(id, name)]
    exactly when its argument is a mapping that has the keys [id] and [name],
    whatever the values under them and whatever other keys it has, and returns
    no source for every other argument.  The four calls of P4 behave as
    listed. *)
Theorem C6_add_source_key_presence :
  (∀ raw σ, ∃ r σ', Sources.add_source raw σ = (Ok r, σ')) ∧
  (∀ raw σ ident name σ',
     Sources.add_source raw σ = (Ok (Some (mkSource ident name)), σ') ↔
     (∃ d, raw = JDict d ∧ d !! "id" = Some ident ∧ d !! "name" = Some name) ∧ σ' = σ) ∧
  result_of (Sources.add_source (dict [("id", JStr "cnn"); ("name", JStr "CNN")])) =
    Ok (Some (mkSource (JStr "cnn") (JStr "CNN"))) ∧
  result_of (Sources.add_source (dict [("id", JNull); ("name", JStr "CNN")])) =
    Ok (Some (mkSource JNull (JStr "CNN"))) ∧
  result_of (Sources.add_source (dict [("name", JStr "CNN")])) = Ok None ∧
  result_of (Sources.add_source (JStr "cnn")) = Ok None.
Proof.
  split; [apply add_source_total|].
  split; [|by repeat split].
  intros raw σ ident name σ'. rewrite add_source_run, <- case_id_name_Some.
  destruct (Sources.case_id_name raw) as [[i n]|]; split.
  - by intros [= <- <- <-].
  - by intros [[= <- <-] ->].
  - done.
  - by intros [? _].
Qed.

(** C6 as stated fails: a mapping whose [name] is a number still gives a
    [Source]. *)
Lemma C6_untyped_name_counterexample :
  spec_source_shape (dict [("id", JStr "cnn"); ("name", JInt 5)]) = false ∧
  result_of (Sources.add_source (dict [("id", JStr "cnn"); ("name", JInt 5)])) =
    Ok (Some (mkSource (JStr "cnn") (JInt 5))).
Proof. by split. Qed.

(** ** [Articles.__make_article_record] *)

Ltac in_fields := unfold Article_fields; rewrite !elem_of_cons; auto 10.

Lemma leftover_empty (kwargs : gmap string json) :
  size (foldr delete kwargs Article_fields) = 0 ↔
  dom kwargs ⊆ list_to_set Article_fields.
Proof.
  rewrite map_size_empty_iff, <- dom_empty_iff_L. cbn.
  rewrite !dom_delete_L. set_unfold.
  split; intros H k; specialize (H k);
    (destruct (decide (k = "title")); [tauto|]);
    (destruct (decide (k = "description")); [tauto|]);
    (destruct (decide (k = "url")); [tauto|]);
    (destruct (decide (k = "urlToImage")); [tauto|]);
    (destruct (decide (k = "publishedAt")); [tauto|]);
    destruct (decide (k = "content")); tauto.
Qed.

Lemma Article_call_Ok kwargs σ art σ' :
  Article_call kwargs σ = (Ok art, σ') ↔
  dom kwargs = list_to_set Article_fields ∧
  kwargs !! "title" = Some (title art) ∧
  kwargs !! "description" = Some (description art) ∧
  kwargs !! "url" = Some (url art) ∧
  kwargs !! "urlToImage" = Some (urlToImage art) ∧
  kwargs !! "publishedAt" = Some (publishedAt art) ∧
  kwargs !! "content" = Some (content art) ∧ σ' = σ.
Proof.
  unfold Article_call. split.
  - destruct (kwargs !! "title") as [t|] eqn:Ht; [|done].
    destruct (kwargs !! "description") as [d|] eqn:Hd; [|done].
    destruct (kwargs !! "url") as [u|] eqn:Hu; [|done].
    destruct (kwargs !! "urlToImage") as [i|] eqn:Hi; [|done].
    destruct (kwargs !! "publishedAt") as [p|] eqn:Hp; [|done].
    destruct (kwargs !! "content") as [c|] eqn:Hc; [|done].
    case_bool_decide as Hrest; [|done]. intros [= <- <-]. cbn.
    split; [|done]. apply leftover_empty in Hrest.
    apply set_eq. intros k. split; [by apply Hrest|].
    cbn. rewrite !elem_of_union, !elem_of_singleton, elem_of_dom.
    rewrite elem_of_empty. intros [->|[->|[->|[->|[->|[->|[]]]]]]]; by eexists.
  - intros (Hdom & -> & -> & -> & -> & -> & -> & ->).
    rewrite bool_decide_eq_true_2; [by destruct art|].
    apply leftover_empty. by rewrite Hdom.
Qed.

Lemma Article_call_cases kwargs σ :
  (∃ art, Article_call kwargs σ = (Ok art, σ)) ∨
  Article_call kwargs σ = (Raise TypeError, σ).
Proof.
  unfold Article_call.
  repeat (match goal with |- context [match ?o with Some _ => _ | None => _ end] =>
            destruct o end; [|by right]).
  case_bool_decide; [left; by eexists|by right].
Qed.

Lemma case_article_Some raw source_raw author_raw article_data :
  Articles.case_article raw = Some (source_raw, author_raw, article_data) ↔
  ∃ d, raw = JDict d ∧ d !! "source" = Some (JDict source_raw) ∧
       d !! "author" = Some author_raw ∧
       article_data = delete "source" (delete "author" d).
Proof.
  split.
  - destruct raw as [| | | | | |d]; try done. cbn.
    destruct (d !! "source") as [src|] eqn:Hs; [|done].
    destruct (d !! "author") as [au|] eqn:Ha; [|done].
    cbn. destruct src; try done. intros [= <- <- <-]. eauto.
  - intros (d & -> & Hs & Ha & ->). cbn. by rewrite Hs, Ha.
Qed.

Lemma record_keys_dom (d : gmap string json) :
  dom d = record_keys ↔
  is_Some (d !! "source") ∧ is_Some (d !! "author") ∧
  dom (delete "source" (delete "author" d)) = list_to_set Article_fields.
Proof.
  rewrite <- !elem_of_dom, !dom_delete_L. unfold record_keys. cbn. set_unfold.
  split.
  - intros H. split; [apply H; auto|]. split; [apply H; auto|].
    intros x. rewrite H. clear H. split.
    + intros [[Hx ?] ?]. destruct Hx as [[?|?]|?]; done.
    + intros Hx. split; [split|]; [by right| |];
        intros ->; repeat (destruct Hx as [Hx|Hx]; [discriminate|]); done.
  - intros (Hs & Ha & H) x. specialize (H x).
    destruct (decide (x = "source")) as [->|]; [tauto|].
    destruct (decide (x = "author")) as [->|]; [tauto|]. tauto.
Qed.

(** What [__make_article_record] does on a fragment, by cases on the shape
    of the fragment. *)
Lemma make_article_record_run raw σ :
  (∃ d source_raw author_raw source author article σ1 σ2,
     raw = JDict d ∧ d !! "source" = Some (JDict source_raw) ∧
     d !! "author" = Some author_raw ∧ dom d = record_keys ∧
     Sources.add_source (JDict source_raw) σ = (Ok source, σ1) ∧
     Authors.add_author author_raw σ1 = (Ok author, σ2) ∧
     Article_call (delete "source" (delete "author" d)) σ2 = (Ok article, σ2) ∧
     Articles.__make_article_record raw σ = (Ok (Some (source, author, article)), σ2)) ∨
  ((∀ d source_raw, raw = JDict d → d !! "source" = Some (JDict source_raw) →
      dom d ≠ record_keys) ∧
   ∃ σ', Articles.__make_article_record raw σ = (Ok None, σ')).
Proof.
  unfold Articles.__make_article_record.
  destruct (Articles.case_article raw) as [[[source_raw author_raw] article_data]|] eqn:Hcase.
  - apply case_article_Some in Hcase as (d & -> & Hs & Ha & ->).
    unfold try_except, mbind, M_bind.
    destruct (add_source_total (JDict source_raw) σ) as (source & σ1 & Hsrc).
    destruct (add_author_total author_raw σ1) as (author & σ2 & Hau).
    rewrite Hsrc, Hau.
    destruct (Article_call_cases (delete "source" (delete "author" d)) σ2)
      as [[article Hart]|Hart]; rewrite Hart.
    + left. exists d, source_raw, author_raw, source, author, article, σ1, σ2.
      repeat split; try done.
      apply record_keys_dom. repeat split; [by eexists..|].
      by apply Article_call_Ok in Hart as [? _].
    + right. split; [|cbn; eauto].
      intros d' s' [= <-] _ Hdom. apply record_keys_dom in Hdom as (_ & _ & Hdom).
      destruct (Article_call_cases (delete "source" (delete "author" d)) σ2)
        as [[article Hart']|_]; [congruence|].
      assert (∃ art σ', Article_call (delete "source" (delete "author" d)) σ2 = (Ok art, σ'))
        as (art & σ' & Hok); [|congruence].
      unfold Article_call.
      assert (∀ k, k ∈ Article_fields →
                is_Some (delete "source" (delete "author" d) !! k)) as Hk.
      { intros k Hin. apply elem_of_dom. rewrite Hdom. by apply elem_of_list_to_set. }
      destruct (Hk "title") as [? ->]; [in_fields|].
      destruct (Hk "description") as [? ->]; [in_fields|].
      destruct (Hk "url") as [? ->]; [in_fields|].
      destruct (Hk "urlToImage") as [? ->]; [in_fields|].
      destruct (Hk "publishedAt") as [? ->]; [in_fields|].
      destruct (Hk "content") as [? ->]; [in_fields|].
      rewrite bool_decide_eq_true_2; [cbn; eauto|].
      apply leftover_empty. by rewrite Hdom.
  - right. split; [|cbn; eauto].
    intros d s -> Hs Hdom. apply record_keys_dom in Hdom as (_ & [a Ha] & _).
    assert (Articles.case_article (JDict d) = Some (s, a, delete "source" (delete "author" d)))
      as Hc; [|congruence].
    apply case_article_Some. eauto.
Qed.

Lemma make_article_record_total raw σ :
  ∃ r σ', Articles.__make_article_record raw σ = (Ok r, σ').
Proof.
  destruct (make_article_record_run raw σ)
    as [(? & ? & ? & ? & ? & ? & ? & ? & H)|[_ [? H]]].
  - destruct H as (_ & _ & _ & _ & _ & _ & _ & ->). eauto.
  - rewrite H. eauto.
Qed.

(** The values of the six fields are the ones found in the fragment. *)
Lemma make_article_record_fields d σ source author article σ' :
  Articles.__make_article_record (JDict d) σ = (Ok (Some (source, author, article)), σ') →
  d !! "title" = Some (title article) ∧
  d !! "description" = Some (description article) ∧
  d !! "url" = Some (url article) ∧
  d !! "urlToImage" = Some (urlToImage article) ∧
  d !! "publishedAt" = Some (publishedAt article) ∧
  d !! "content" = Some (content article).
Proof.
  intros Hrun.
  destruct (make_article_record_run (JDict d) σ)
    as [(d' & s & a & src & au & art & σ1 & σ2 & H)|[_ [? H]]]; [|congruence].
  destruct H as ([= <-] & _ & _ & _ & _ & _ & Hart & Hrun').
  rewrite Hrun in Hrun'. injection Hrun' as -> -> -> ->.
  apply Article_call_Ok in Hart as (_ & Ht & Hd & Hu & Hi & Hp & Hc & _).
  rewrite !lookup_delete_ne in Ht, Hd, Hu, Hi, Hp, Hc by done. done.
Qed.



(** ** [Articles.__init__] *)

Lemma make_article_record_yields raw σ r σ' :
  Articles.__make_article_record raw σ = (Ok r, σ') → yields raw r.
Proof.
  intros H. unfold yields. rewrite (framed_make_article_record raw σ) in H. congruence.
Qed.

Lemma genexpr_run l σ :
  ∃ records σ', Articles.genexpr l σ = (Ok records, σ') ∧ Forall2 yields l records.
Proof.
  revert σ. induction l as [|raw l IH]; intros σ; cbn [Articles.genexpr truthy negb].
  - eexists [], σ. by split.
  - destruct (make_article_record_total raw σ) as (r & σ1 & Hr).
    destruct (IH σ1) as (rs & σ2 & Hrs & Hall).
    exists (r :: rs), σ2. unfold mbind, M_bind. rewrite Hr, Hrs. split; [done|].
    constructor; [by eapply make_article_record_yields|done].
Qed.

Lemma Articles_init_run l σ :
  ∃ arts σ', Articles.__init__ l σ = (Ok arts, σ') ∧
             Forall2 yields l (Articles.articles arts).
Proof.
  destruct (genexpr_run l σ) as (rs & σ' & Hrs & Hall).
  exists (Articles.mk rs), σ'. unfold Articles.__init__, mbind, M_bind.
  by rewrite Hrs.
Qed.

(** ** [ApiResponse.__match_response] *)

Lemma literal_eq_true v lit : literal_eq v lit = true ↔ v = JStr lit.
Proof.
  destruct v; cbn; try by split.
  rewrite bool_decide_eq_true. split; [by intros ->|by intros [= ->]].
Qed.

Lemma case_ok_Some raw total_results articles :
  ApiResponse.case_ok raw = Some (total_results, articles) ↔
  ∃ d, raw = JDict d ∧ d !! "status" = Some (JStr "ok") ∧
       d !! "totalResults" = Some total_results ∧
       d !! "articles" = Some (JList articles).
Proof.
  split.
  - destruct raw as [| | | | | |d]; try done. cbn.
    destruct (d !! "status") as [st|] eqn:Hst; [|done].
    destruct (d !! "totalResults") as [t|] eqn:Ht; [|done].
    destruct (d !! "articles") as [a|] eqn:Ha; [|done]. cbn.
    destruct (literal_eq st "ok") eqn:Hlit; [|done].
    apply literal_eq_true in Hlit as ->.
    destruct a; try done. intros [= <- <-]. eauto.
  - intros (d & -> & Hst & Ht & Ha). cbn. by rewrite Hst, Ht, Ha.
Qed.

Lemma case_error_Some raw code msg :
  ApiResponse.case_error raw = Some (code, msg) ↔
  ∃ d, raw = JDict d ∧ d !! "status" = Some (JStr "error") ∧
       d !! "code" = Some code ∧ d !! "message" = Some msg.
Proof.
  split.
  - destruct raw as [| | | | | |d]; try done. cbn.
    destruct (d !! "status") as [st|] eqn:Hst; [|done].
    destruct (d !! "code") as [c|] eqn:Hc; [|done].
    destruct (d !! "message") as [m|] eqn:Hm; [|done]. cbn.
    destruct (literal_eq st "error") eqn:Hlit; [|done].
    apply literal_eq_true in Hlit as ->. intros [= <- <-]. eauto.
  - intros (d & -> & Hst & Hc & Hm). cbn. by rewrite Hst, Hc, Hm.
Qed.

Lemma case_ok_shape raw : is_Some (ApiResponse.case_ok raw) ↔ ok_shape raw.
Proof.
  split.
  - intros [[t l] H]. apply case_ok_Some in H as (d & ? & ? & ? & ?).
    by exists d, t, l.
  - intros (d & t & l & H). exists (t, l). apply case_ok_Some. eauto.
Qed.

Lemma case_error_shape raw : is_Some (ApiResponse.case_error raw) ↔ error_shape raw.
Proof.
  split.
  - intros [[c m] H]. apply case_error_Some in H as (d & ? & ? & ? & ?).
    by exists d, c, m.
  - intros (d & c & m & H). exists (c, m). apply case_error_Some. eauto.
Qed.

Lemma shapes_exclusive raw : ok_shape raw → error_shape raw → False.
Proof.
  intros (d & ? & ? & -> & Hok & _) (d' & ? & ? & [= <-] & Herr & _). congruence.
Qed.

Lemma match_response_ok raw total_results l σ :
  ApiResponse.case_ok raw = Some (total_results, l) →
  ∃ arts σ',
    ApiResponse.__match_response raw σ = (Ok (mkMetaData total_results, arts), σ') ∧
    Forall2 yields l (Articles.articles arts).
Proof.
  intros H. unfold ApiResponse.__match_response. rewrite H.
  destruct (Articles_init_run l σ) as (arts & σ' & Hrun & Hall).
  exists arts, σ'. unfold mbind, M_bind. by rewrite Hrun.
Qed.

Lemma match_response_error raw code msg σ :
  ApiResponse.case_ok raw = None →
  ApiResponse.case_error raw = Some (code, msg) →
  ApiResponse.__match_response raw σ =
  (Raise (ResponseError (error_message code msg)), σ).
Proof. intros H1 H2. unfold ApiResponse.__match_response. by rewrite H1, H2. Qed.

Lemma match_response_unpatterned raw σ :
  ApiResponse.case_ok raw = None →
  ApiResponse.case_error raw = None →
  ApiResponse.__match_response raw σ =
  (Raise (ResponseError (unpatterned_message raw)), σ).
Proof. intros H1 H2. unfold ApiResponse.__match_response. by rewrite H1, H2. Qed.

Lemma status_error_not_ok d :
  d !! "status" = Some (JStr "error") → ApiResponse.case_ok (JDict d) = None.
Proof.
  intros H. destruct (ApiResponse.case_ok (JDict d)) as [[t l]|] eqn:Hok; [|done].
  apply case_ok_Some in Hok as (? & [= <-] & ? & _). congruence.
Qed.

(** C2 (amended): [__match_response] takes exactly one of three branches, in
    this order.  A mapping with [status == "ok"], a [totalResults] key holding
    any value and a list under [articles] returns a result and does not raise;
    otherwise a mapping with [status == "error"] and the keys [code] and
    [message] raises [ResponseError]; every other input raises
    [ResponseError].  An input with an integer [totalResults] and the other
    success keys takes the first branch, and one whose [articles] is not a
    list does not. *)
Theorem C2_three_branches raw σ :
  ((ok_shape raw ∧ ¬ error_shape raw ∧
    ∃ r σ', ApiResponse.__match_response raw σ = (Ok r, σ')) ∨
   (¬ ok_shape raw ∧ error_shape raw ∧
    ∃ code msg, ApiResponse.__match_response raw σ =
                (Raise (ResponseError (error_message code msg)), σ)) ∨
   (¬ ok_shape raw ∧ ¬ error_shape raw ∧
    ApiResponse.__match_response raw σ =
    (Raise (ResponseError (unpatterned_message raw)), σ))) ∧
  (spec_success_shape raw = true → ok_shape raw) ∧
  (∀ d a, raw = JDict d → d !! "articles" = Some a → (∀ l, a ≠ JList l) →
          ¬ ok_shape raw).
Proof.
  split; [|split].
  - destruct (ApiResponse.case_ok raw) as [[t l]|] eqn:Hok.
    + left. assert (ok_shape raw) as Hs by (apply case_ok_shape; by eexists).
      split; [done|]. split; [by intros ?; eapply shapes_exclusive|].
      destruct (match_response_ok raw t l σ Hok) as (arts & σ' & -> & _). eauto.
    + assert (¬ ok_shape raw) as Hn.
      { intros Hs. apply case_ok_shape in Hs as [? ?]. congruence. }
      right. destruct (ApiResponse.case_error raw) as [[c m]|] eqn:Herr.
      * left. split; [done|]. split; [apply case_error_shape; by eexists|].
        exists c, m. by apply match_response_error.
      * right. split; [done|]. split; [|by apply match_response_unpatterned].
        intros Hs. apply case_error_shape in Hs as [? ?]. congruence.
  - destruct raw as [| | | | | |d]; try done. cbn.
    destruct (d !! "status") as [st|] eqn:Hst; [|done].
    destruct (d !! "totalResults") as [[| |z| | | |]|] eqn:Ht; try done.
    destruct (d !! "articles") as [[| | | | |l|]|] eqn:Ha; try done.
    intros Hlit. apply literal_eq_true in Hlit as ->. by exists d, (JInt z), l.
  - intros d a -> Ha Hnl (d' & t & l & [= <-] & _ & _ & Hl). apply (Hnl l). congruence.
Qed.

(** C2 as stated fails: with a string under [totalResults] the document does
    not have the success shape of the specification, yet it is returned as a
    success and nothing is raised. *)
Lemma C2_untyped_totalResults_counterexample :
  spec_success_shape (ok_doc (JStr "37") []) = false ∧
  result_of (ApiResponse.__match_response (ok_doc (JStr "37") [])) =
    Ok (mkMetaData (JStr "37"), Articles.mk []).
Proof. by split. Qed.

(** ** [ApiResponse.__init__] *)

Lemma string_app_nil_r (s : string) : s ++ EmptyString = s.
Proof.
  induction s as [|c s IH]; [done|].
  change (String c s ++ EmptyString) with (String c (s ++ EmptyString)). by rewrite IH.
Qed.

Lemma string_app_assoc (s t u : string) : (s ++ t) ++ u = s ++ t ++ u.
Proof.
  induction s as [|c s IH]; [done|].
  change (String c (s ++ t) ++ u = String c (s ++ t ++ u)).
  change (String c ((s ++ t) ++ u) = String c (s ++ t ++ u)). by rewrite IH.
Qed.

Lemma ApiResponse_init_run raw σ :
  ApiResponse.__init__ raw σ =
  match ApiResponse.__match_response raw σ with
  | (Ok (metadata, articles), σ') => (Ok (ApiResponse.mk metadata articles), σ')
  | (Raise e, σ') => (Raise e, σ')
  end.
Proof.
  unfold ApiResponse.__init__, mbind, M_bind.
  by destruct (ApiResponse.__match_response raw σ) as [[[? ?]|?] ?].
Qed.

(** C1: the document below has one element under [articles], a fragment
    without [content], which yields no record.  The specification's record
    sequence is then empty; the list built by [Articles.__init__] holds one
    entry, [None], because the filter of the generator expression tests the
    constant [None] and lets every element through. *)
Theorem C1_dropped_article_left_in_list :
  yields article_without_content None ∧
  result_of (ApiResponse.__init__ (ok_doc (JInt 1) [article_without_content])) =
    Ok (ApiResponse.mk (mkMetaData (JInt 1)) (Articles.mk [None])) ∧
  spec_records [None] = [].
Proof. by repeat split. Qed.

(** C7: a mapping with [status == "error"], a [code] and a [message] makes
    the construction of [ApiResponse] raise [ResponseError] and return no
    object; the message is ["Error Code: "], the [str] of the code, a line
    feed, ["Message: "] and the [str] of the message.  When the code is an
    integer or a string and the message a string, the text of the exception
    therefore contains both verbatim: the digits of the code and the message
    itself. *)
Theorem C7_reported_error_raises d code msg σ :
  d !! "status" = Some (JStr "error") →
  d !! "code" = Some code →
  d !! "message" = Some msg →
  ApiResponse.__init__ (JDict d) σ =
    (Raise (ResponseError (error_message code msg)), σ) ∧
  (∀ r σ', ApiResponse.__init__ (JDict d) σ ≠ (Ok r, σ')) ∧
  (∀ cs ms, verbatim code cs → verbatim msg ms →
     ∃ text, render (error_message code msg) = Some text ∧
       text = "Error Code: " ++ cs ++ LF ++ "Message: " ++ ms ∧
       substring_of cs text ∧ substring_of ms text).
Proof.
  intros Hst Hc Hm.
  assert (ApiResponse.__init__ (JDict d) σ =
          (Raise (ResponseError (error_message code msg)), σ)) as Hrun.
  { rewrite ApiResponse_init_run, (match_response_error _ code msg); [done| |].
    - by apply status_error_not_ok.
    - apply case_error_Some. eauto. }
  split; [done|]. split; [by rewrite Hrun|].
  intros cs ms Hcs Hms.
  assert (py_str code = Some cs) as Hpc.
  { destruct Hcs as [(z & -> & ->)| ->]; reflexivity. }
  assert (py_str msg = Some ms) as Hpm.
  { destruct Hms as [(z & -> & ->)| ->]; reflexivity. }
  exists ("Error Code: " ++ cs ++ LF ++ "Message: " ++ ms).
  split; [|split; [done|split]].
  - cbn. rewrite Hpc, Hpm. cbn. by rewrite string_app_nil_r, string_app_assoc.
  - by exists "Error Code: ", (LF ++ "Message: " ++ ms).
  - exists ("Error Code: " ++ cs ++ LF ++ "Message: "), EmptyString.
    by rewrite string_app_nil_r, !string_app_assoc.
Qed.

Lemma C7_reported_error_raises_witness :
  ApiResponse.__init__ sample_error [] =
    (Raise (ResponseError (error_message (JInt 426) (JStr "API key invalid"))), []) ∧
  (∀ r σ', ApiResponse.__init__ sample_error [] ≠ (Ok r, σ')) ∧
  (∃ text,
     render (error_message (JInt 426) (JStr "API key invalid")) = Some text ∧
     text = "Error Code: " ++ "426" ++ LF ++ "Message: " ++ "API key invalid" ∧
     substring_of "426" text ∧ substring_of "API key invalid" text).
Proof.
  destruct (C7_reported_error_raises
              (list_to_map [("status", JStr "error"); ("code", JInt 426);
                            ("message", JStr "API key invalid")])
              (JInt 426) (JStr "API key invalid") [])
    as (Hrun & Hno & Htext); [reflexivity..|].
  split; [exact Hrun|]. split; [exact Hno|].
  apply (Htext "426" "API key invalid").
  - left. exists 426%Z. split; [reflexivity|vm_compute; reflexivity].
  - right. reflexivity.
Defined.

(** C8: for a mapping with [status == "ok"], a [totalResults] key and a list
    under [articles], the list [Articles.articles] of the result has the
    length of that list, and its entry at each position is what
    [__make_article_record] yields for the element at that position: [None]
    for a dropped element. *)
Theorem C8_articles_keep_length d total_results l σ :
  d !! "status" = Some (JStr "ok") →
  d !! "totalResults" = Some total_results →
  d !! "articles" = Some (JList l) →
  ∃ r σ', ApiResponse.__init__ (JDict d) σ = (Ok r, σ') ∧
    length (Articles.articles (ApiResponse.articles r)) = length l ∧
    Forall2 yields l (Articles.articles (ApiResponse.articles r)) ∧
    (∀ i raw, l !! i = Some raw → yields raw None →
              Articles.articles (ApiResponse.articles r) !! i = Some None).
Proof.
  intros Hst Ht Ha.
  assert (ApiResponse.case_ok (JDict d) = Some (total_results, l)) as Hok.
  { apply case_ok_Some. eauto. }
  destruct (match_response_ok _ _ _ σ Hok) as (arts & σ' & Hrun & Hall).
  exists (ApiResponse.mk (mkMetaData total_results) arts), σ'.
  rewrite ApiResponse_init_run, Hrun. split; [done|]. cbn.
  split; [symmetry; by eapply Forall2_length|]. split; [done|].
  intros i raw Hi Hnone.
  destruct (Forall2_lookup_l _ _ _ _ _ Hall Hi) as (r & Hr & Hy).
  unfold yields in *. congruence.
Qed.

Lemma C8_articles_keep_length_witness :
  ∃ r σ', ApiResponse.__init__ (ok_doc (JInt 1) [JInt 5]) [] = (Ok r, σ') ∧
    length (Articles.articles (ApiResponse.articles r)) = length [JInt 5] ∧
    Forall2 yields [JInt 5] (Articles.articles (ApiResponse.articles r)) ∧
    (∀ i raw, [JInt 5] !! i = Some raw → yields raw None →
              Articles.articles (ApiResponse.articles r) !! i = Some None).
Proof.
  apply (C8_articles_keep_length
           (list_to_map [("status", JStr "ok"); ("totalResults", JInt 1);
                         ("articles", JList [JInt 5])])
           (JInt 1) [JInt 5] []); reflexivity.
Defined.

(** C9: the outcome of constructing an [ApiResponse] from a document does not
    depend on the log calls made before, so two constructions from the same
    document, one after the other or from unrelated states, give equal
    outcomes: equal metadata and equal records, or the same exception. *)
Theorem C9_construction_deterministic raw σ1 σ2 :
  (ApiResponse.__init__ raw σ1).1 = (ApiResponse.__init__ raw σ2).1 ∧
  (ApiResponse.__init__ raw (ApiResponse.__init__ raw σ1).2).1 =
    (ApiResponse.__init__ raw σ1).1.
Proof.
  split.
  - by rewrite (framed_ApiResponse_init raw σ1), (framed_ApiResponse_init raw σ2).
  - rewrite (framed_ApiResponse_init raw σ1). cbn [fst snd].
    by rewrite (framed_ApiResponse_init raw (σ1 ++ _)%list).
Qed.

(** C10: keys beyond those a pattern names do not change the branch taken.
    Adding any other key to a mapping with [status == "ok"], [totalResults]
    and a list under [articles] gives the same success; adding any other key
    to a mapping with [status == "error"], [code] and [message] gives the
    same reported error. *)
Theorem C10_extra_keys_ignored d k v σ :
  (∀ total_results l,
     d !! "status" = Some (JStr "ok") →
     d !! "totalResults" = Some total_results →
     d !! "articles" = Some (JList l) →
     k ∉ ["status"; "totalResults"; "articles"] →
     ∃ arts σ',
       ApiResponse.__match_response (JDict (<[k:=v]> d)) σ =
         (Ok (mkMetaData total_results, arts), σ') ∧
       ApiResponse.__match_response (JDict d) σ =
         (Ok (mkMetaData total_results, arts), σ')) ∧
  (∀ code msg,
     d !! "status" = Some (JStr "error") →
     d !! "code" = Some code →
     d !! "message" = Some msg →
     k ∉ ["status"; "code"; "message"] →
     ApiResponse.__match_response (JDict (<[k:=v]> d)) σ =
       (Raise (ResponseError (error_message code msg)), σ) ∧
     ApiResponse.__match_response (JDict d) σ =
       (Raise (ResponseError (error_message code msg)), σ)).
Proof.
  split.
  - intros t l Hst Ht Ha Hk. rewrite !not_elem_of_cons in Hk.
    destruct Hk as (? & ? & ? & _).
    assert (ApiResponse.case_ok (JDict d) = Some (t, l)) as Hok.
    { apply case_ok_Some. eauto. }
    assert (ApiResponse.case_ok (JDict (<[k:=v]> d)) = Some (t, l)) as Hok'.
    { apply case_ok_Some. exists (<[k:=v]> d). rewrite !lookup_insert_ne by done. eauto. }
    destruct (match_response_ok _ _ _ σ Hok) as (arts & σ' & Hrun & _).
    exists arts, σ'. split; [|done].
    unfold ApiResponse.__match_response in *. by rewrite Hok in Hrun; rewrite Hok'.
  - intros c m Hst Hc Hm Hk. rewrite !not_elem_of_cons in Hk.
    destruct Hk as (? & ? & ? & _). split.
    + apply match_response_error.
      * apply status_error_not_ok. by rewrite lookup_insert_ne.
      * apply case_error_Some. exists (<[k:=v]> d). rewrite !lookup_insert_ne by done. eauto.
    + apply match_response_error; [by apply status_error_not_ok|].
      apply case_error_Some. eauto.
Qed.

Lemma C10_extra_keys_ignored_witness :
  (∃ arts σ',
     ApiResponse.__match_response
       (JDict (<["page":=JInt 2]> (list_to_map
          [("status", JStr "ok"); ("totalResults", JInt 1);
           ("articles", JList [sample_article])]))) [] =
       (Ok (mkMetaData (JInt 1), arts), σ') ∧
     ApiResponse.__match_response (ok_doc (JInt 1) [sample_article]) [] =
       (Ok (mkMetaData (JInt 1), arts), σ')) ∧
  (ApiResponse.__match_response
     (JDict (<["page":=JInt 2]> (list_to_map
        [("status", JStr "error"); ("code", JInt 426);
         ("message", JStr "API key invalid")]))) [] =
     (Raise (ResponseError (error_message (JInt 426) (JStr "API key invalid"))), []) ∧
   ApiResponse.__match_response sample_error [] =
     (Raise (ResponseError (error_message (JInt 426) (JStr "API key invalid"))), [])).
Proof.
  split.
  - apply (proj1 (C10_extra_keys_ignored _ "page" (JInt 2) []) (JInt 1) [sample_article]);
      try reflexivity.
    rewrite !not_elem_of_cons. repeat split; try discriminate. apply not_elem_of_nil.
  - apply (proj2 (C10_extra_keys_ignored _ "page" (JInt 2) [])
             (JInt 426) (JStr "API key invalid"));
      try reflexivity.
    rewrite !not_elem_of_cons. repeat split; try discriminate. apply not_elem_of_nil.
Defined.

(** * Further properties of the builders and of the log *)

(** ** [Authors.add_author]: what is logged *)

Lemma split_length sep s : length (split sep s) = S (count_char sep s).
Proof.
  induction s as [|c s IH]; [done|]. cbn.
  destruct (Ascii.eqb c sep); cbn; [by rewrite IH|].
  destruct (split sep s) as [|h t]; [done|]. cbn in *. lia.
Qed.

(** X1: for a non-empty string, [add_author] looks only at the number of
    spaces.  With exactly one it returns the [Author] of the two parts and
    makes no log call; with none or with several it returns [None] and makes
    one log call, at level [INFO], that carries the string. *)
Theorem X1_add_author_counts_spaces s σ :
  s ≠ EmptyString →
  (count_char " " s = 1 ∧
   ∃ a b, s = a ++ " " ++ b ∧
     Authors.add_author (JStr s) σ = (Ok (RetAuthor (mkAuthor a b)), σ)) ∨
  (count_char " " s ≠ 1 ∧
   Authors.add_author (JStr s) σ =
     (Ok (RetRaw JNull), (σ ++ [author_info (JStr s)])%list)).
Proof.
  intros Hs. rewrite add_author_str by done.
  pose proof (split_length " " s) as Hlen.
  destruct (split " " s) as [|a [|b [|? ?]]] eqn:Hsp; cbn in Hlen;
    try (right; split; [lia|done]).
  left. split; [lia|].
  apply split_pair in Hsp as (-> & _ & _). by exists a, b.
Qed.

Lemma X1_add_author_counts_spaces_witness :
  (count_char " " "Jane Middle Doe" = 1 ∧
   ∃ a b, "Jane Middle Doe" = a ++ " " ++ b ∧
     Authors.add_author (JStr "Jane Middle Doe") [] =
       (Ok (RetAuthor (mkAuthor a b)), [])) ∨
  (count_char " " "Jane Middle Doe" ≠ 1 ∧
   Authors.add_author (JStr "Jane Middle Doe") [] =
     (Ok (RetRaw JNull), ([] ++ [author_info (JStr "Jane Middle Doe")])%list)).
Proof. apply (X1_add_author_counts_spaces "Jane Middle Doe" []). discriminate. Defined.

Lemma add_author_non_string raw σ :
  truthy raw = true → is_str raw = false →
  Authors.add_author raw σ =
    (Ok (RetRaw JNull), (σ ++ [author_warning raw])%list).
Proof.
  intros Ht Hs. unfold Authors.add_author, try_except. rewrite Ht.
  by destruct raw.
Qed.

(** X2: a truthy author value that is not a string (a non-zero number,
    [true], a non-empty list or mapping) has no [split]; the
    [AttributeError] reaches the second [except] clause, so [add_author]
    returns [None] and makes one log call at level [WARNING]. *)
Theorem X2_add_author_non_string_warns raw σ :
  truthy raw = true → is_str raw = false →
  Authors.add_author raw σ =
    (Ok (RetRaw JNull), (σ ++ [author_warning raw])%list).
Proof.
  intros Ht Hs. unfold Authors.add_author, try_except. rewrite Ht.
  destruct raw as [| | | |s| |]; try done; reflexivity.
Qed.

Lemma X2_add_author_non_string_warns_witness :
  Authors.add_author (JInt 7) [] =
    (Ok (RetRaw JNull), ([] ++ [author_warning (JInt 7)])%list).
Proof. apply (X2_add_author_non_string_warns (JInt 7) []); reflexivity. Defined.

(** Every run of [add_author]: the result and the log calls added. *)
Lemma add_author_events raw σ :
  ∃ r evs, Authors.add_author raw σ = (Ok r, (σ ++ evs)%list) ∧
    (evs = [] ∨ evs = [author_info raw] ∨
     (evs = [author_warning raw] ∧ truthy raw = true ∧ is_str raw = false)).
Proof.
  destruct (truthy raw) eqn:Ht.
  - destruct (is_str raw) eqn:Hs.
    + destruct raw as [| | | |s| |]; try done.
      assert (s ≠ EmptyString) as Hne by (by intros ->).
      rewrite add_author_str by done.
      destruct (split " " s) as [|a [|b [|? ?]]];
        first [by eexists _, []; rewrite app_nil_r; eauto
              |by eexists _, [_]; eauto].
    + rewrite add_author_non_string by done.
      eexists _, [_]. split; [done|]. right. right. done.
  - rewrite add_author_falsy by done. eexists _, []. rewrite app_nil_r. eauto.
Qed.

(** ** The [Article] constructor *)

Lemma Article_call_dom kwargs σ :
  dom kwargs = list_to_set Article_fields →
  ∃ art, Article_call kwargs σ = (Ok art, σ).
Proof.
  intros Hdom. unfold Article_call.
  assert (∀ k, k ∈ Article_fields → is_Some (kwargs !! k)) as Hk.
  { intros k Hin. apply elem_of_dom. rewrite Hdom. by apply elem_of_list_to_set. }
  destruct (Hk "title") as [? ->]; [in_fields|].
  destruct (Hk "description") as [? ->]; [in_fields|].
  destruct (Hk "url") as [? ->]; [in_fields|].
  destruct (Hk "urlToImage") as [? ->]; [in_fields|].
  destruct (Hk "publishedAt") as [? ->]; [in_fields|].
  destruct (Hk "content") as [? ->]; [in_fields|].
  rewrite bool_decide_eq_true_2; [cbn; eauto|].
  apply leftover_empty. by rewrite Hdom.
Qed.

(** ** [Articles.__make_article_record]: result and log together *)

Lemma add_source_events raw σ :
  (∃ src, Sources.add_source raw σ = (Ok (Some src), σ)) ∨
  Sources.add_source raw σ = (Ok None, (σ ++ [source_info raw])%list).
Proof.
  rewrite add_source_run. destruct (Sources.case_id_name raw) as [[? ?]|]; eauto.
Qed.

(** A run of [__make_article_record]: first the log calls of the two
    builders, then one more call exactly when the fragment is dropped. *)
Lemma make_article_record_events raw σ :
  ∃ r pre last,
    Articles.__make_article_record raw σ = (Ok r, (σ ++ pre ++ last)%list) ∧
    Forall builder_record pre ∧
    ((is_Some r ∧ last = []) ∨
     (r = None ∧ ∃ fmt v, last = [mkLog INFO fmt (_ArticleCreationError v)])).
Proof.
  unfold Articles.__make_article_record.
  destruct (Articles.case_article raw) as [[[source_raw author_raw] article_data]|].
  - unfold try_except, mbind, M_bind.
    assert (∃ src e1, Sources.add_source (JDict source_raw) σ = (Ok src, (σ ++ e1)%list) ∧
                      Forall builder_record e1) as (src & e1 & -> & H1).
    { destruct (add_source_events (JDict source_raw) σ) as [[src ->]| ->].
      - exists (Some src), []. by rewrite app_nil_r.
      - eexists None, [_]. split; [done|]. apply Forall_singleton. left. by eexists. }
    assert (∃ au e2, Authors.add_author author_raw (σ ++ e1)%list =
                       (Ok au, ((σ ++ e1) ++ e2)%list) ∧
                     Forall builder_record e2) as (au & e2 & -> & H2).
    { destruct (add_author_events author_raw (σ ++ e1)%list) as (au & e2 & -> & He2).
      exists au, e2. split; [done|].
      destruct He2 as [->|[->|(-> & ? & ?)]]; [done| |]; apply Forall_singleton.
      - right. left. by eexists.
      - right. right. by eexists. }
    destruct (Article_call_cases article_data ((σ ++ e1) ++ e2)%list)
      as [[article ->]| ->]; cbn.
    + eexists _, (e1 ++ e2)%list, []. rewrite app_nil_r, app_assoc.
      split; [done|]. split; [by apply Forall_app|]. left. by split; [eexists|].
    + eexists None, (e1 ++ e2)%list, [_]. rewrite !app_assoc.
      split; [done|]. split; [by apply Forall_app|]. right. split; [done|]. by eexists _, _.
  - cbn. eexists None, [], [_]. split; [done|]. split; [done|].
    right. split; [done|]. by eexists _, _.
Qed.

Lemma make_article_record_record_of raw σ :
  Articles.__make_article_record raw σ =
  (Ok (record_of raw), (σ ++ article_events raw)%list).
Proof.
  rewrite (framed_make_article_record raw σ). unfold record_of, article_events.
  destruct (make_article_record_total raw []) as (r & σ' & H).
  unfold result_of. by rewrite H.
Qed.

(** X4: a fragment that carries any key besides the eight expected ones is
    dropped, whatever else it holds. *)
Theorem X4_extra_key_drops_article d k v σ :
  k ∉ record_keys →
  ∃ σ', Articles.__make_article_record (JDict (<[k:=v]> d)) σ = (Ok None, σ').
Proof.
  intros Hk.
  destruct (make_article_record_run (JDict (<[k:=v]> d)) σ)
    as [(d' & ? & ? & ? & ? & ? & ? & ? & [= <-] & _ & _ & Hdom & _)|[_ H]]; [|done].
  exfalso. apply Hk. rewrite <- Hdom. apply elem_of_dom. rewrite lookup_insert_eq. by eexists.
Qed.

Lemma X4_extra_key_drops_article_witness :
  ∃ σ', Articles.__make_article_record
          (JDict (<["category":=JStr "sports"]>
             (list_to_map
                [("source", sample_source); ("author", JStr "Jane Doe");
                 ("title", JStr "T"); ("description", JStr "D"); ("url", JStr "U");
                 ("urlToImage", JStr "I");
                 ("publishedAt", JStr "2024-01-02T03:04:05Z");
                 ("content", JStr "C")]))) [] = (Ok None, σ').
Proof.
  apply (X4_extra_key_drops_article _ "category" (JStr "sports") []).
  vm_compute. intros H. discriminate H.
Defined.

(** X5: the three components of a built record.  The source is present
    exactly when the [source] sub-mapping has both [id] and [name], and then
    holds their values; the author is what [add_author] returns for the value
    under [author]; each of the six fields holds the value found under its
    key, [publishedAt] included, unchanged. *)
Theorem X5_record_components d σ source author article σ' :
  Articles.__make_article_record (JDict d) σ = (Ok (Some (source, author, article)), σ') →
  ∃ s a,
    d !! "source" = Some (JDict s) ∧ d !! "author" = Some a ∧
    source = (ident ← s !! "id"; name ← s !! "name"; Some (mkSource ident name)) ∧
    result_of (Authors.add_author a) = Ok author ∧
    d !! "title" = Some (title article) ∧
    d !! "description" = Some (description article) ∧
    d !! "url" = Some (url article) ∧
    d !! "urlToImage" = Some (urlToImage article) ∧
    d !! "publishedAt" = Some (publishedAt article) ∧
    d !! "content" = Some (content article).
Proof.
  intros Hrun. pose proof (make_article_record_fields _ _ _ _ _ _ Hrun) as Hf.
  destruct (make_article_record_run (JDict d) σ)
    as [(d' & s & a & src & au & art & σ1 & σ2 & H)|[_ [? H]]]; [|congruence].
  destruct H as ([= <-] & Hs & Ha & _ & Hsrc & Hau & _ & Hrun').
  rewrite Hrun in Hrun'. injection Hrun' as -> -> -> ->.
  exists s, a. split; [done|]. split; [done|]. split; [|split; [|done]].
  - rewrite add_source_run in Hsrc. cbn in Hsrc.
    destruct (s !! "id") as [i|]; cbn in *; [|congruence].
    destruct (s !! "name") as [n|]; cbn in *; congruence.
  - rewrite (framed_add_author a σ1) in Hau. congruence.
Qed.

Lemma X5_record_components_witness :
  ∃ s a,
    (list_to_map [("source", JDict ∅); ("author", JInt 7);
                  ("title", JStr "T"); ("description", JStr "D"); ("url", JStr "U");
                  ("urlToImage", JStr "I");
                  ("publishedAt", JStr "2024-01-02T03:04:05Z");
                  ("content", JStr "C")] : gmap string json) !! "source" = Some (JDict s) ∧
    (list_to_map [("source", JDict ∅); ("author", JInt 7);
                  ("title", JStr "T"); ("description", JStr "D"); ("url", JStr "U");
                  ("urlToImage", JStr "I");
                  ("publishedAt", JStr "2024-01-02T03:04:05Z");
                  ("content", JStr "C")] : gmap string json) !! "author" = Some a ∧
    (None : option Source) =
      (ident ← s !! "id"; name ← s !! "name"; Some (mkSource ident name)) ∧
    result_of (Authors.add_author a) = Ok (RetRaw JNull).
Proof.
  destruct (X5_record_components
              (list_to_map [("source", JDict ∅); ("author", JInt 7);
                            ("title", JStr "T"); ("description", JStr "D"); ("url", JStr "U");
                            ("urlToImage", JStr "I");
                            ("publishedAt", JStr "2024-01-02T03:04:05Z");
                            ("content", JStr "C")])
              [] None (RetRaw JNull)
              (mkArticle (JStr "T") (JStr "D") (JStr "U") (JStr "I")
                 (JStr "2024-01-02T03:04:05Z") (JStr "C"))
              [source_info (JDict ∅); author_warning (JInt 7)])
    as (s & a & Hs & Ha & Hsrc & Hau & _); [vm_compute; reflexivity|].
  exists s, a. done.
Defined.

(** X11: the three ways a fragment is handled, with what is logged.  A
    fragment that is not a mapping with a [source] mapping and an [author] key
    is dropped before any builder runs, with one log call that carries the
    whole fragment.  Otherwise both builders run and may log; then either
    the keys are the eight expected ones and a record is returned with no
    further log call, or the fragment is dropped with one log call that
    carries the fragment without [source] and [author]. *)
Theorem X11_fragment_paths raw σ :
  ((¬ ∃ d s a, raw = JDict d ∧ d !! "source" = Some (JDict s) ∧
               d !! "author" = Some a) ∧
   Articles.__make_article_record raw σ =
     (Ok None,
      (σ ++ [mkLog INFO "Unpatterned article: %s" (_ArticleCreationError raw)])%list)) ∨
  (∃ d s a pre,
     raw = JDict d ∧ d !! "source" = Some (JDict s) ∧ d !! "author" = Some a ∧
     Forall builder_record pre ∧
     ((dom d = record_keys ∧
       ∃ record, Articles.__make_article_record raw σ =
                   (Ok (Some record), (σ ++ pre)%list)) ∨
      (dom d ≠ record_keys ∧
       Articles.__make_article_record raw σ =
         (Ok None,
          (σ ++ pre ++
             [mkLog INFO "Ran into an error creating article object: %s"
                (_ArticleCreationError (JDict (delete "source" (delete "author" d))))])%list)))).
Proof.
  unfold Articles.__make_article_record.
  destruct (Articles.case_article raw) as [[[source_raw author_raw] article_data]|] eqn:Hcase.
  - right. apply case_article_Some in Hcase as (d & -> & Hs & Ha & ->).
    unfold try_except, mbind, M_bind.
    assert (∃ src e1, Sources.add_source (JDict source_raw) σ = (Ok src, (σ ++ e1)%list) ∧
                      Forall builder_record e1) as (src & e1 & -> & H1).
    { destruct (add_source_events (JDict source_raw) σ) as [[src ->]| ->].
      - exists (Some src), []. by rewrite app_nil_r.
      - eexists None, [_]. split; [done|]. apply Forall_singleton. left. by eexists. }
    assert (∃ au e2, Authors.add_author author_raw (σ ++ e1)%list =
                       (Ok au, ((σ ++ e1) ++ e2)%list) ∧
                     Forall builder_record e2) as (au & e2 & -> & H2).
    { destruct (add_author_events author_raw (σ ++ e1)%list) as (au & e2 & -> & He2).
      exists au, e2. split; [done|].
      destruct He2 as [->|[->|(-> & ? & ?)]]; [done| |]; apply Forall_singleton.
      - right. left. by eexists.
      - right. right. by eexists. }
    exists d, source_raw, author_raw, (e1 ++ e2)%list.
    split; [done|]. split; [done|]. split; [done|]. split; [by apply Forall_app|].
    destruct (Article_call_cases (delete "source" (delete "author" d)) ((σ ++ e1) ++ e2)%list)
      as [[article Hart]|Hart]; rewrite Hart; cbn.
    + left. split.
      * apply record_keys_dom. repeat split; [by eexists..|].
        by apply Article_call_Ok in Hart as [? _].
      * eexists. by rewrite app_assoc.
    + right. split; [|by rewrite !app_assoc].
      intros Hdom. apply record_keys_dom in Hdom as (_ & _ & Hdom).
      destruct (Article_call_dom _ ((σ ++ e1) ++ e2)%list Hdom) as [art Hart']. congruence.
  - left. split; [|done]. intros (d & s & a & -> & Hs & Ha).
    assert (Articles.case_article (JDict d) = Some (s, a, delete "source" (delete "author" d)))
      as Hc; [|congruence].
    apply case_article_Some. eauto.
Qed.

(** ** Whole batches: [Articles.__init__] and [ApiResponse.__init__] *)

Lemma count_where_app {A} (p : A → bool) (l1 l2 : list A) :
  count_where p (l1 ++ l2) = count_where p l1 + count_where p l2.
Proof. induction l1 as [|x l1 IH]; cbn; [done|]. rewrite IH. lia. Qed.

Lemma builder_record_not_article_error rec :
  builder_record rec → is_article_error rec = false.
Proof. by intros [[v ->]|[[v ->]|(v & -> & _)]]. Qed.

Lemma builder_record_warning rec : builder_record rec → warning_from_author rec.
Proof.
  intros [[v ->]|[[v ->]|(v & -> & ? & ?)]] Hlvl; try done. by exists v.
Qed.

Lemma article_events_split raw :
  ∃ pre last, article_events raw = (pre ++ last)%list ∧
    Forall builder_record pre ∧
    ((is_dropped (record_of raw) = false ∧ last = []) ∨
     (is_dropped (record_of raw) = true ∧
      ∃ fmt v, last = [mkLog INFO fmt (_ArticleCreationError v)])).
Proof.
  destruct (make_article_record_events raw []) as (r & pre & last & Hrun & Hpre & Hlast).
  rewrite make_article_record_record_of in Hrun. cbn in Hrun.
  injection Hrun as <- ->. exists pre, last. split; [done|]. split; [done|].
  destruct Hlast as [[[? ->] ->]|[-> ?]]; [by left|by right].
Qed.

Lemma article_events_count raw :
  count_where is_article_error (article_events raw) =
  if is_dropped (record_of raw) then 1 else 0.
Proof.
  destruct (article_events_split raw) as (pre & last & -> & Hpre & Hlast).
  rewrite count_where_app.
  assert (count_where is_article_error pre = 0) as ->.
  { induction Hpre as [|rec pre Hrec _ IH]; [done|]. cbn.
    by rewrite (builder_record_not_article_error rec Hrec), IH. }
  by destruct Hlast as [[-> ->]|[-> (fmt & v & ->)]].
Qed.

Lemma article_events_warnings raw : Forall warning_from_author (article_events raw).
Proof.
  destruct (article_events_split raw) as (pre & last & -> & Hpre & Hlast).
  apply Forall_app. split.
  - eapply Forall_impl; [done|]. apply builder_record_warning.
  - destruct Hlast as [[_ ->]|[_ (fmt & v & ->)]]; [done|].
    apply Forall_singleton. by intros ?.
Qed.

Lemma genexpr_full l σ :
  Articles.genexpr l σ =
  (Ok (map record_of l), (σ ++ concat (map article_events l))%list).
Proof.
  revert σ. induction l as [|raw l IH]; intros σ; cbn [Articles.genexpr truthy negb].
  - cbn. by rewrite app_nil_r.
  - unfold mbind, M_bind. rewrite make_article_record_record_of, IH. cbn.
    by rewrite app_assoc.
Qed.

Lemma Articles_init_full l σ :
  Articles.__init__ l σ =
  (Ok (Articles.mk (map record_of l)), (σ ++ concat (map article_events l))%list).
Proof. unfold Articles.__init__, mbind, M_bind. by rewrite genexpr_full. Qed.

Lemma ApiResponse_init_ok d total_results l σ :
  d !! "status" = Some (JStr "ok") →
  d !! "totalResults" = Some total_results →
  d !! "articles" = Some (JList l) →
  ApiResponse.__init__ (JDict d) σ =
    (Ok (ApiResponse.mk (mkMetaData total_results) (Articles.mk (map record_of l))),
     (σ ++ concat (map article_events l))%list).
Proof.
  intros Hst Ht Ha.
  assert (ApiResponse.case_ok (JDict d) = Some (total_results, l)) as Hok.
  { apply case_ok_Some. eauto. }
  rewrite ApiResponse_init_run. unfold ApiResponse.__match_response.
  rewrite Hok. unfold mbind, M_bind. by rewrite Articles_init_full.
Qed.

Lemma ApiResponse_init_cases raw σ :
  (∃ d total_results l,
     raw = JDict d ∧ d !! "status" = Some (JStr "ok") ∧
     d !! "totalResults" = Some total_results ∧ d !! "articles" = Some (JList l)) ∨
  (∃ msg, ApiResponse.__init__ raw σ = (Raise (ResponseError msg), σ)).
Proof.
  destruct (ApiResponse.case_ok raw) as [[t l]|] eqn:Hok.
  - left. apply case_ok_Some in Hok as (d & ? & ? & ? & ?). by exists d, t, l.
  - right. rewrite ApiResponse_init_run.
    destruct (ApiResponse.case_error raw) as [[c m]|] eqn:Herr.
    + rewrite (match_response_error _ c m) by done. eauto.
    + rewrite match_response_unpatterned by done. eauto.
Qed.

(** X6: every dropped element is reported once.  In the log calls made by
    [Articles.__init__], the number of calls that carry an
    [_ArticleCreationError] equals the number of [None] entries of the list
    it builds. *)
Theorem X6_dropped_articles_are_logged l σ :
  ∃ arts evs,
    Articles.__init__ l σ = (Ok arts, (σ ++ evs)%list) ∧
    count_where is_article_error evs =
    count_where is_dropped (Articles.articles arts).
Proof.
  eexists _, _. split; [apply Articles_init_full|]. cbn.
  induction l as [|raw l IH]; [done|]. cbn.
  rewrite count_where_app, article_events_count, IH. done.
Qed.

(** X7: building the batch of a concatenation is building the two batches one
    after the other: the entries are those of the first batch followed by
    those of the second, and the log is the one left by the second run
    started on the log left by the first. *)
Theorem X7_Articles_init_app l1 l2 σ :
  ∃ a1 σ1 a2 σ2,
    Articles.__init__ l1 σ = (Ok a1, σ1) ∧
    Articles.__init__ l2 σ1 = (Ok a2, σ2) ∧
    Articles.__init__ (l1 ++ l2) σ =
      (Ok (Articles.mk (Articles.articles a1 ++ Articles.articles a2)%list), σ2).
Proof.
  eexists _, _, _, _. split; [apply Articles_init_full|].
  split; [apply Articles_init_full|].
  rewrite Articles_init_full. cbn.
  by rewrite !map_app, concat_app, app_assoc.
Qed.

Lemma make_article_record_pipeline raw σ :
  ∃ r evs, Articles.__make_article_record raw σ = (Ok r, (σ ++ evs)%list) ∧
           Forall pipeline_record evs.
Proof.
  assert (∀ l, Forall builder_record l → Forall pipeline_record l) as Hb.
  { intros l Hl. eapply Forall_impl; [done|]. intros rec Hrec. by left. }
  unfold Articles.__make_article_record.
  destruct (Articles.case_article raw) as [[[source_raw author_raw] article_data]|].
  - unfold try_except, mbind, M_bind.
    assert (∃ src e1, Sources.add_source (JDict source_raw) σ = (Ok src, (σ ++ e1)%list) ∧
                      Forall builder_record e1) as (src & e1 & -> & H1).
    { destruct (add_source_events (JDict source_raw) σ) as [[src ->]| ->].
      - exists (Some src), []. by rewrite app_nil_r.
      - eexists None, [_]. split; [done|]. apply Forall_singleton. left. by eexists. }
    assert (∃ au e2, Authors.add_author author_raw (σ ++ e1)%list =
                       (Ok au, ((σ ++ e1) ++ e2)%list) ∧
                     Forall builder_record e2) as (au & e2 & -> & H2).
    { destruct (add_author_events author_raw (σ ++ e1)%list) as (au & e2 & -> & He2).
      exists au, e2. split; [done|].
      destruct He2 as [->|[->|(-> & ? & ?)]]; [done| |]; apply Forall_singleton.
      - right. left. by eexists.
      - right. right. by eexists. }
    destruct (Article_call_cases article_data ((σ ++ e1) ++ e2)%list)
      as [[article ->]| ->]; cbn.
    + eexists _, (e1 ++ e2)%list. rewrite app_assoc. split; [done|].
      apply Forall_app. split; by apply Hb.
    + eexists None, ((e1 ++ e2) ++ [_])%list. rewrite !app_assoc. split; [done|].
      apply Forall_app. split; [apply Forall_app; split; by apply Hb|].
      apply Forall_singleton. right. right. by eexists.
  - cbn. eexists None, [_]. split; [done|].
    apply Forall_singleton. right. left. by eexists.
Qed.

Lemma article_events_pipeline raw : Forall pipeline_record (article_events raw).
Proof.
  destruct (make_article_record_pipeline raw []) as (r & evs & Hrun & Hevs).
  rewrite make_article_record_record_of in Hrun. cbn in Hrun.
  by injection Hrun as _ ->.
Qed.

(** X8: every log call made while an [ApiResponse] is constructed is one of
    five: the [INFO] call of [add_source], the [INFO] call of [add_author],
    the [WARNING] call of [add_author] for a truthy value that is not a
    string, and the two [INFO] calls that report a dropped fragment.  The
    only warning is thus the one of [add_author]: the [except Exception]
    clauses of [add_source] and of [__make_article_record] are never reached.
    A document that is refused at the top level logs nothing. *)
Theorem X8_warnings_only_from_authors raw σ :
  ∃ out evs,
    ApiResponse.__init__ raw σ = (out, (σ ++ evs)%list) ∧
    Forall pipeline_record evs ∧
    Forall warning_from_author evs ∧
    match out with
    | Raise _ => evs = []
    | Ok _ => True
    end.
Proof.
  destruct (ApiResponse_init_cases raw σ) as [(d & t & l & -> & Hst & Ht & Ha)|[msg ->]].
  - rewrite (ApiResponse_init_ok d t l σ Hst Ht Ha).
    eexists _, _. split; [done|]. split; [|split; [|done]]; clear.
    + induction l as [|a l' IH]; [done|]. cbn.
      apply Forall_app. split; [apply article_events_pipeline|done].
    + induction l as [|a l' IH]; [done|]. cbn.
      apply Forall_app. split; [apply article_events_warnings|done].
  - eexists _, []. rewrite app_nil_r. by repeat split.
Qed.

(** X9: the whole success branch.  For a mapping with [status == "ok"], a
    [totalResults] key and a list under [articles], the metadata holds the
    value under [totalResults] as it is, whatever the number of articles; the
    entries are the records of the elements in order; the log gains the log
    calls of the elements in order and nothing else. *)
Theorem X9_success_result_and_log d total_results l σ :
  d !! "status" = Some (JStr "ok") →
  d !! "totalResults" = Some total_results →
  d !! "articles" = Some (JList l) →
  ApiResponse.__init__ (JDict d) σ =
    (Ok (ApiResponse.mk (mkMetaData total_results) (Articles.mk (map record_of l))),
     (σ ++ concat (map article_events l))%list).
Proof.
  intros Hst Ht Ha.
  assert (ApiResponse.case_ok (JDict d) = Some (total_results, l)) as Hok.
  { apply case_ok_Some. exists d. done. }
  rewrite ApiResponse_init_run. unfold ApiResponse.__match_response.
  rewrite Hok. unfold mbind, M_bind.
  rewrite Articles_init_full. reflexivity.
Qed.

Lemma X9_success_result_and_log_witness :
  ApiResponse.__init__ (ok_doc (JInt 37) [sample_article; JInt 5; mistyped_article])
    [author_info (JStr "Jane")] =
    (Ok (ApiResponse.mk (mkMetaData (JInt 37))
           (Articles.mk
              (map record_of [sample_article; JInt 5; mistyped_article]))),
     ([author_info (JStr "Jane")] ++
        concat (map article_events [sample_article; JInt 5; mistyped_article]))%list) ∧
  map record_of [sample_article; JInt 5; mistyped_article] =
    [Some (Some (mkSource (JStr "cnn") (JStr "CNN")), RetAuthor (mkAuthor "Jane" "Doe"),
           mkArticle (JStr "T") (JStr "D") (JStr "U") (JStr "I")
             (JStr "2024-01-02T03:04:05Z") (JStr "C"));
     None;
     Some (Some (mkSource (JStr "cnn") (JStr "CNN")), RetAuthor (mkAuthor "Jane" "Doe"),
           mkArticle (JInt 5) (JStr "D") (JStr "U") (JStr "I")
             (JStr "2024-01-02T03:04:05Z") (JStr "C"))] ∧
  concat (map article_events [sample_article; JInt 5; mistyped_article]) =
    [mkLog INFO "Unpatterned article: %s" (_ArticleCreationError (JInt 5))].
Proof.
  split; [|split; vm_compute; reflexivity].
  apply (X9_success_result_and_log
           (list_to_map [("status", JStr "ok"); ("totalResults", JInt 37);
                         ("articles", JList [sample_article; JInt 5; mistyped_article])])
           (JInt 37) [sample_article; JInt 5; mistyped_article]
           [author_info (JStr "Jane")]); reflexivity.
Defined.

Lemma clean_article_quiet raw :
  clean_article raw →
  is_dropped (record_of raw) = false ∧ article_events raw = [].
Proof.
  intros (d & s & a & -> & Hdom & Hs & [i Hi] & [n Hn] & Ha & Hq).
  destruct (make_article_record_run (JDict d) [])
    as [(d' & s' & a' & src & au & art & σ1 & σ2 & H)|[Hno _]];
    [|by destruct (Hno d s eq_refl Hs)].
  destruct H as ([= <-] & Hs' & Ha' & _ & Hsrc & Hau & _ & Hrun).
  rewrite Hs in Hs'. injection Hs' as <-. rewrite Ha in Ha'. injection Ha' as <-.
  rewrite add_source_run in Hsrc. cbn in Hsrc. rewrite Hi, Hn in Hsrc. cbn in Hsrc.
  injection Hsrc as <- <-.
  assert (σ2 = []) as ->.
  { destruct Hq as [Hf|(x & y & -> & Hx & Hy)].
    - rewrite add_author_falsy in Hau by done. congruence.
    - rewrite (proj2 (add_author_Author _ [] x y [])) in Hau by done. congruence. }
  rewrite make_article_record_record_of in Hrun. cbn in Hrun.
  injection Hrun as -> ->. done.
Qed.

(** X10: a clean document is read silently and completely.  If every element
    under [articles] has exactly the eight keys, a source mapping with [id]
    and [name], and an author that is falsy or a name with one space, then
    the construction makes no log call and no entry of the list is [None]. *)
Theorem X10_clean_document_is_silent d total_results l σ :
  d !! "status" = Some (JStr "ok") →
  d !! "totalResults" = Some total_results →
  d !! "articles" = Some (JList l) →
  Forall clean_article l →
  ∃ r, ApiResponse.__init__ (JDict d) σ = (Ok r, σ) ∧
    length (Articles.articles (ApiResponse.articles r)) = length l ∧
    count_where is_dropped (Articles.articles (ApiResponse.articles r)) = 0.
Proof.
  intros Hst Ht Ha Hclean. rewrite (ApiResponse_init_ok d total_results l σ Hst Ht Ha).
  assert (concat (map article_events l) = [] ∧
          count_where is_dropped (map record_of l) = 0) as [-> Hcount].
  2: { eexists. rewrite app_nil_r. split; [done|]. cbn. by rewrite length_map. }
  clear Hst Ht Ha.
  induction Hclean as [|raw l' Hraw _ [IH1 IH2]]; [done|]. cbn.
  destruct (clean_article_quiet raw Hraw) as [-> ->]. by rewrite IH1, IH2.
Qed.

Lemma sample_article_clean : clean_article sample_article.
Proof.
  unfold clean_article, sample_article, sample_source, dict.
  eexists _, _, _. split; [reflexivity|]. split.
  { cbn [list_to_map foldr uncurry fst snd].
    rewrite !dom_insert_L, dom_empty_L. unfold record_keys. cbn.
    apply set_eq. intros x.
    rewrite !elem_of_union, !elem_of_singleton, elem_of_empty. tauto. }
  split; [reflexivity|]. split; [by eexists|]. split; [by eexists|].
  split; [reflexivity|]. right. by exists "Jane", "Doe".
Qed.

Lemma X10_clean_document_is_silent_witness :
  ∃ r, ApiResponse.__init__ (ok_doc (JInt 1) [sample_article]) [] = (Ok r, []) ∧
    length (Articles.articles (ApiResponse.articles r)) = length [sample_article] ∧
    count_where is_dropped (Articles.articles (ApiResponse.articles r)) = 0.
Proof.
  apply (X10_clean_document_is_silent
           (list_to_map [("status", JStr "ok"); ("totalResults", JInt 1);
                         ("articles", JList [sample_article])])
           (JInt 1) [sample_article] []); try reflexivity.
  apply Forall_singleton, sample_article_clean.
Defined.

(** ** Sample evaluations *)

Example add_author_jane_doe σ :
  Authors.add_author (JStr "Jane Doe") σ = (Ok (RetAuthor (mkAuthor "Jane" "Doe")), σ).
Proof. reflexivity. Qed.

Example sample_article_record :
  (Articles.__make_article_record sample_article []).1 =
  Ok (Some (Some (mkSource (JStr "cnn") (JStr "CNN")), RetAuthor (mkAuthor "Jane" "Doe"),
            mkArticle (JStr "T") (JStr "D") (JStr "U") (JStr "I")
              (JStr "2024-01-02T03:04:05Z") (JStr "C"))).
Proof. vm_compute. reflexivity. Qed.

Example sample_error_raises :
  (ApiResponse.__init__ sample_error []).1 =
  Raise (ResponseError (error_message (JInt 426) (JStr "API key invalid"))).
Proof. vm_compute. reflexivity. Qed.

Example sample_error_text :
  render (error_message (JInt 426) (JStr "API key invalid")) =
  Some ("Error Code: 426" ++ LF ++ "Message: API key invalid").
Proof. vm_compute. reflexivity. Qed.

Example sample_ok_empty :
  result_of (ApiResponse.__init__ (ok_doc (JInt 37) [])) =
  Ok (ApiResponse.mk (mkMetaData (JInt 37)) (Articles.mk [])).
Proof. vm_compute. reflexivity. Qed.
